(** * The combined OpenAPI + MCP agent script (src/adk_test/agent.py)

    A shallow embedding of the script: the embedded OpenAPI document and
    what [json.loads] makes of it, the start-up credential check, the
    construction of the two toolsets and the agent, and the demo run that
    sends literal prompts to the runner.  Everything the script only calls
    (dotenv, uuid, os.path, str.strip, the ADK runner) is an interface,
    [Runtime], and the properties hold for every implementation of it. *)

From Stdlib Require Import ZArith NArith Ascii String List Bool.
From stdpp Require Import base option gmap strings list.

Local Set Warnings "-register-all".

(* ===================================================================== *)
(** * JSON text, as [json.loads] reads it (RFC 8259)                      *)
(* ===================================================================== *)

Module Json.

Local Open Scope Z_scope.

(** A Python value made by [json.loads].  An object keeps its members in
    document order, duplicates included; [obj_get] reads it as the
    [dict] does (the last binding of a key wins). *)
Inductive json : Type :=
| JNull
| JBool (b : bool)
| JInt (z : Z)
| JReal (lexeme : string)
| JString (s : string)
| JArray (items : list json)
| JObject (members : list (string * json)).

(** The double quote, by its code: string literals here hold none. *)
Definition dquote : ascii := "034"%char.
Definition backslash : ascii := "092"%char.

Definition is_ws (c : ascii) : bool :=
  match c with
  | " "%char | "009"%char | "010"%char | "013"%char => true
  | _ => false
  end.

Fixpoint skip_ws (s : string) : string :=
  match s with
  | String c r => if is_ws c then skip_ws r else s
  | EmptyString => s
  end.

Definition is_digit (c : ascii) : bool :=
  (48 <=? nat_of_ascii c)%nat && (nat_of_ascii c <=? 57)%nat.

Definition digit_value (c : ascii) : Z := Z.of_nat (nat_of_ascii c) - 48.

(** The longest prefix of digits, and what follows it. *)
Fixpoint span_digits (s : string) : string * string :=
  match s with
  | String c r =>
      if is_digit c then let '(ds, rest) := span_digits r in (String c ds, rest)
      else (EmptyString, s)
  | EmptyString => (EmptyString, s)
  end.

Definition decimal (ds : string) : Z :=
  fold_left (fun acc c => 10 * acc + digit_value c) (list_ascii_of_string ds) 0.

Definition hex_value (c : ascii) : option N :=
  let n := N_of_ascii c in
  if ((48 <=? n) && (n <=? 57))%N then Some (n - 48)%N
  else if ((65 <=? n) && (n <=? 70))%N then Some (n - 55)%N
  else if ((97 <=? n) && (n <=? 102))%N then Some (n - 87)%N
  else None.

Definition hex4 (a b c d : ascii) : option N :=
  match hex_value a, hex_value b, hex_value c, hex_value d with
  | Some x, Some y, Some z, Some w => Some (((x * 16 + y) * 16 + z) * 16 + w)%N
  | _, _, _, _ => None
  end.

Definition byte (n : N) : ascii := ascii_of_N n.

(** UTF-8 bytes of a code point. *)
Definition utf8 (cp : N) : string :=
  (if cp <? 128 then String (byte cp) EmptyString
   else if cp <? 2048 then
     String (byte (192 + cp / 64)) (String (byte (128 + cp mod 64)) EmptyString)
   else if cp <? 65536 then
     String (byte (224 + cp / 4096))
       (String (byte (128 + (cp / 64) mod 64))
          (String (byte (128 + cp mod 64)) EmptyString))
   else
     String (byte (240 + cp / 262144))
       (String (byte (128 + (cp / 4096) mod 64))
          (String (byte (128 + (cp / 64) mod 64))
             (String (byte (128 + cp mod 64)) EmptyString))))%N.

Definition is_high_surrogate (cp : N) : bool := ((55296 <=? cp) && (cp <? 56320))%N.
Definition is_low_surrogate (cp : N) : bool := ((56320 <=? cp) && (cp <? 57344))%N.

(** The characters of a string after its opening quote, up to the closing
    one: escapes are decoded, a raw control character is refused.  A
    surrogate escape is read only as half of a pair. *)
Fixpoint parse_chars (s : string) : option (string * string) :=
  match s with
  | EmptyString => None
  | String c r =>
      if Ascii.eqb c dquote then Some (EmptyString, r)
      else if Ascii.eqb c backslash then
        match r with
        | String "u" (String h1 (String h2 (String h3 (String h4 r1)))) =>
            match hex4 h1 h2 h3 h4 with
            | None => None
            | Some hi =>
                if is_high_surrogate hi then
                  match r1 with
                  | String b (String "u" (String l1 (String l2 (String l3 (String l4 r2))))) =>
                      match hex4 l1 l2 l3 l4 with
                      | Some lo =>
                          if Ascii.eqb b backslash && is_low_surrogate lo then
                            match parse_chars r2 with
                            | Some (t, rest) =>
                                Some (utf8 (65536 + (hi - 55296) * 1024 + (lo - 56320))%N +:+ t, rest)
                            | None => None
                            end
                          else None
                      | None => None
                      end
                  | _ => None
                  end
                else if is_low_surrogate hi then None
                else
                  match parse_chars r1 with
                  | Some (t, rest) => Some (utf8 hi +:+ t, rest)
                  | None => None
                  end
            end
        | String e r1 =>
            let decoded :=
              if Ascii.eqb e dquote then Some dquote
              else if Ascii.eqb e backslash then Some backslash
              else match e with
                   | "/"%char => Some "/"%char
                   | "b"%char => Some "008"%char
                   | "f"%char => Some "012"%char
                   | "n"%char => Some "010"%char
                   | "r"%char => Some "013"%char
                   | "t"%char => Some "009"%char
                   | _ => None
                   end in
            match decoded, parse_chars r1 with
            | Some d, Some (t, rest) => Some (String d t, rest)
            | _, _ => None
            end
        | EmptyString => None
        end
      else if (nat_of_ascii c <? 32)%nat then None
      else
        match parse_chars r with
        | Some (t, rest) => Some (String c t, rest)
        | None => None
        end
  end.

(** number = [ minus ] int [ frac ] [ exp ]: an integer becomes an
    [int], anything with a fraction or an exponent a [float], kept here
    as its lexeme. *)
Definition parse_number (s : string) : option (json * string) :=
  let '(neg, s1) := match s with
                    | String "-" r => (true, r)
                    | _ => (false, s)
                    end in
  let '(ds, s2) := span_digits s1 in
  match ds with
  | EmptyString => None
  | String "0" (String _ _) => None
  | _ =>
      let frac :=
        match s2 with
        | String "." r =>
            let '(fs, s3) := span_digits r in
            match fs with
            | EmptyString => None
            | _ => Some (String "." fs, s3)
            end
        | _ => Some (EmptyString, s2)
        end in
      match frac with
      | None => None
      | Some (fs, s3) =>
          let exp :=
            match s3 with
            | String e r =>
                if Ascii.eqb e "e" || Ascii.eqb e "E" then
                  let '(sg, r1) := match r with
                                   | String "+" r' => ("+"%string, r')
                                   | String "-" r' => ("-"%string, r')
                                   | _ => (EmptyString, r)
                                   end in
                  let '(es, s4) := span_digits r1 in
                  match es with
                  | EmptyString => None
                  | _ => Some (String e (sg +:+ es), s4)
                  end
                else Some (EmptyString, s3)
            | EmptyString => Some (EmptyString, s3)
            end in
          match exp with
          | None => None
          | Some (es, s4) =>
              match fs, es with
              | EmptyString, EmptyString =>
                  Some (JInt (if neg then - decimal ds else decimal ds), s4)
              | _, _ =>
                  Some (JReal ((if neg then "-" else "") +:+ ds +:+ fs +:+ es), s4)
              end
          end
      end
  end.

(** [s] without its prefix [p], if it starts with it. *)
Fixpoint strip_prefix (p s : string) : option string :=
  match p, s with
  | EmptyString, _ => Some s
  | String a p', String b s' => if Ascii.eqb a b then strip_prefix p' s' else None
  | String _ _, EmptyString => None
  end.

(** [s.startswith(p)] *)
Definition has_prefix (p s : string) : bool :=
  match strip_prefix p s with Some _ => true | None => false end.

(** value, the elements of an array after its bracket and the members of
    an object after its brace; [fuel] bounds the nesting and the number
    of items, and [loads] gives enough of it for any text. *)
Fixpoint parse_value (fuel : nat) (s : string) {struct fuel} : option (json * string) :=
  match fuel with
  | O => None
  | S fuel' =>
      match skip_ws s with
      | EmptyString => None
      | String c r as s0 =>
          if Ascii.eqb c dquote then
            match parse_chars r with
            | Some (t, rest) => Some (JString t, rest)
            | None => None
            end
          else
            match c with
            | "{"%char =>
                match skip_ws r with
                | String "}" rest => Some (JObject [], rest)
                | r' => parse_members fuel' r' []
                end
            | "["%char =>
                match skip_ws r with
                | String "]" rest => Some (JArray [], rest)
                | r' => parse_elements fuel' r' []
                end
            | "t"%char => option_map (pair (JBool true)) (strip_prefix "true" s0)
            | "f"%char => option_map (pair (JBool false)) (strip_prefix "false" s0)
            | "n"%char => option_map (pair JNull) (strip_prefix "null" s0)
            | _ => parse_number s0
            end
      end
  end
with parse_elements (fuel : nat) (s : string) (acc : list json) {struct fuel}
  : option (json * string) :=
  match fuel with
  | O => None
  | S fuel' =>
      match parse_value fuel' s with
      | Some (v, r) =>
          match skip_ws r with
          | String "," r' => parse_elements fuel' r' (v :: acc)
          | String "]" r' => Some (JArray (rev (v :: acc)), r')
          | _ => None
          end
      | None => None
      end
  end
with parse_members (fuel : nat) (s : string) (acc : list (string * json)) {struct fuel}
  : option (json * string) :=
  match fuel with
  | O => None
  | S fuel' =>
      match skip_ws s with
      | String c r =>
          if Ascii.eqb c dquote then
            match parse_chars r with
            | Some (k, r1) =>
                match skip_ws r1 with
                | String ":" r2 =>
                    match parse_value fuel' r2 with
                    | Some (v, r3) =>
                        match skip_ws r3 with
                        | String "," r4 => parse_members fuel' r4 ((k, v) :: acc)
                        | String "}" r4 => Some (JObject (rev ((k, v) :: acc)), r4)
                        | _ => None
                        end
                    | None => None
                    end
                | _ => None
                end
            | None => None
            end
          else None
      | EmptyString => None
      end
  end.

(** [json.loads]: one value with blanks around it and nothing else;
    [None] stands for [JSONDecodeError].  (Python also reads the constants
    NaN and Infinity, which are no JSON; they are refused here.) *)
Definition loads (s : string) : option json :=
  match parse_value (2 * String.length s + 2) s with
  | Some (v, rest) =>
      match skip_ws rest with
      | EmptyString => Some v
      | String _ _ => None
      end
  | None => None
  end.

(** [d.get(k)] on the dict of an object: the last member named [k]. *)
Fixpoint assoc_last (k : string) (m : list (string * json)) : option json :=
  match m with
  | [] => None
  | (k', v) :: m' =>
      match assoc_last k m' with
      | Some w => Some w
      | None => if String.eqb k k' then Some v else None
      end
  end.

Definition obj_get (k : string) (j : json) : option json :=
  match j with
  | JObject m => assoc_last k m
  | _ => None
  end.

Definition obj_members (j : json) : list (string * json) :=
  match j with
  | JObject m => m
  | _ => []
  end.

Definition obj_keys (j : json) : list string := map fst (obj_members j).

Definition arr_items (j : json) : list json :=
  match j with
  | JArray l => l
  | _ => []
  end.

Definition get_string (k : string) (j : json) : option string :=
  match obj_get k j with
  | Some (JString s) => Some s
  | _ => None
  end.

(** Follow a chain of member names from [j]. *)
Fixpoint at_path (ks : list string) (j : json) : option json :=
  match ks with
  | [] => Some j
  | k :: ks' =>
      match obj_get k j with
      | Some v => at_path ks' v
      | None => None
      end
  end.

End Json.

(* ===================================================================== *)
(** * The embedded OpenAPI document (agent.py, lines 55-749)              *)
(* ===================================================================== *)

(** The text between the triple quotes of [openapi_spec_string], line for
    line and cut in ten pieces, with every double quote written as an
    apostrophe (the document holds no apostrophe and no backslash of its
    own).  Each piece starts with the line break that ends the line
    before it. *)

(** Lines 56-77: the opening brace, [info], [servers] and the opening of [paths]. *)
Definition spec_head : string := "
{
  'openapi': '3.0.3',
  'info': {
    'title': 'ReqRes API',
    'description': 'A hosted REST-API ready to respond to your AJAX requests. Free fake REST API for testing and prototyping.',
    'version': '1.0.0',
    'contact': {
      'name': 'ReqRes',
      'url': 'https://reqres.in'
    },
    'license': {
      'name': 'MIT',
      'url': 'https://opensource.org/licenses/MIT'
    }
  },
  'servers': [
    {
      'url': 'https://reqres.in/api',
      'description': 'ReqRes.in API server'
    }
  ],
  'paths': {".

(** Lines 78-148: [/users]. *)
Definition spec_path_users : string := "
    '/users': {
      'get': {
        'summary': 'List Users',
        'description': 'Get a paginated list of users',
        'tags': ['Users'],
        'parameters': [
          {
            'name': 'page',
            'in': 'query',
            'required': false,
            'description': 'Page number (default: 1)',
            'schema': {
              'type': 'integer',
              'minimum': 1,
              'default': 1
            }
          },
          {
            'name': 'per_page',
            'in': 'query',
            'required': false,
            'description': 'Number of users per page (default: 6)',
            'schema': {
              'type': 'integer',
              'minimum': 1,
              'maximum': 12,
              'default': 6
            }
          }
        ],
        'responses': {
          '200': {
            'description': 'Success',
            'content': {
              'application/json': {
                'schema': {
                  '$ref': '#/components/schemas/UsersListResponse'
                }
              }
            }
          }
        }
      },
      'post': {
        'summary': 'Create User',
        'description': 'Create a new user',
        'tags': ['Users'],
        'requestBody': {
          'required': true,
          'content': {
            'application/json': {
              'schema': {
                '$ref': '#/components/schemas/CreateUserRequest'
              }
            }
          }
        },
        'responses': {
          '201': {
            'description': 'User created successfully',
            'content': {
              'application/json': {
                'schema': {
                  '$ref': '#/components/schemas/CreateUserResponse'
                }
              }
            }
          }
        }
      }
    },".

(** Lines 149-285: [/users/{id}]. *)
Definition spec_path_users_id : string := "
    '/users/{id}': {
      'get': {
        'summary': 'Get Single User',
        'description': 'Get a single user by ID',
        'tags': ['Users'],
        'parameters': [
          {
            'name': 'id',
            'in': 'path',
            'required': true,
            'description': 'User ID',
            'schema': {
              'type': 'integer'
            }
          }
        ],
        'responses': {
          '200': {
            'description': 'Success',
            'content': {
              'application/json': {
                'schema': {
                  '$ref': '#/components/schemas/SingleUserResponse'
                }
              }
            }
          },
          '404': {
            'description': 'User not found',
            'content': {
              'application/json': {
                'schema': {
                  '$ref': '#/components/schemas/ErrorResponse'
                }
              }
            }
          }
        }
      },
      'put': {
        'summary': 'Update User',
        'description': 'Update an existing user',
        'tags': ['Users'],
        'parameters': [
          {
            'name': 'id',
            'in': 'path',
            'required': true,
            'description': 'User ID',
            'schema': {
              'type': 'integer'
            }
          }
        ],
        'requestBody': {
          'required': true,
          'content': {
            'application/json': {
              'schema': {
                '$ref': '#/components/schemas/UpdateUserRequest'
              }
            }
          }
        },
        'responses': {
          '200': {
            'description': 'User updated successfully',
            'content': {
              'application/json': {
                'schema': {
                  '$ref': '#/components/schemas/UpdateUserResponse'
                }
              }
            }
          }
        }
      },
      'patch': {
        'summary': 'Partial Update User',
        'description': 'Partially update an existing user',
        'tags': ['Users'],
        'parameters': [
          {
            'name': 'id',
            'in': 'path',
            'required': true,
            'description': 'User ID',
            'schema': {
              'type': 'integer'
            }
          }
        ],
        'requestBody': {
          'required': true,
          'content': {
            'application/json': {
              'schema': {
                '$ref': '#/components/schemas/UpdateUserRequest'
              }
            }
          }
        },
        'responses': {
          '200': {
            'description': 'User updated successfully',
            'content': {
              'application/json': {
                'schema': {
                  '$ref': '#/components/schemas/UpdateUserResponse'
                }
              }
            }
          }
        }
      },
      'delete': {
        'summary': 'Delete User',
        'description': 'Delete a user by ID',
        'tags': ['Users'],
        'parameters': [
          {
            'name': 'id',
            'in': 'path',
            'required': true,
            'description': 'User ID',
            'schema': {
              'type': 'integer'
            }
          }
        ],
        'responses': {
          '204': {
            'description': 'User deleted successfully'
          }
        }
      }
    },".

(** Lines 286-357: [/unknown] and [/unknown/{id}]. *)
Definition spec_path_unknown : string := "
    '/unknown': {
      'get': {
        'summary': 'List Resources',
        'description': 'Get a list of unknown resources (colors)',
        'tags': ['Resources'],
        'parameters': [
          {
            'name': 'page',
            'in': 'query',
            'required': false,
            'description': 'Page number',
            'schema': {
              'type': 'integer',
              'minimum': 1,
              'default': 1
            }
          }
        ],
        'responses': {
          '200': {
            'description': 'Success',
            'content': {
              'application/json': {
                'schema': {
                  '$ref': '#/components/schemas/ResourcesListResponse'
                }
              }
            }
          }
        }
      }
    },
    '/unknown/{id}': {
      'get': {
        'summary': 'Get Single Resource',
        'description': 'Get a single resource by ID',
        'tags': ['Resources'],
        'parameters': [
          {
            'name': 'id',
            'in': 'path',
            'required': true,
            'description': 'Resource ID',
            'schema': {
              'type': 'integer'
            }
          }
        ],
        'responses': {
          '200': {
            'description': 'Success',
            'content': {
              'application/json': {
                'schema': {
                  '$ref': '#/components/schemas/SingleResourceResponse'
                }
              }
            }
          },
          '404': {
            'description': 'Resource not found',
            'content': {
              'application/json': {
                'schema': {
                  '$ref': '#/components/schemas/ErrorResponse'
                }
              }
            }
          }
        }
      }
    },".

(** Lines 358-435: [/register] and [/login]. *)
Definition spec_path_auth : string := "
    '/register': {
      'post': {
        'summary': 'Register User',
        'description': 'Register a new user account',
        'tags': ['Authentication'],
        'requestBody': {
          'required': true,
          'content': {
            'application/json': {
              'schema': {
                '$ref': '#/components/schemas/RegisterRequest'
              }
            }
          }
        },
        'responses': {
          '200': {
            'description': 'Registration successful',
            'content': {
              'application/json': {
                'schema': {
                  '$ref': '#/components/schemas/RegisterResponse'
                }
              }
            }
          },
          '400': {
            'description': 'Registration failed',
            'content': {
              'application/json': {
                'schema': {
                  '$ref': '#/components/schemas/ErrorResponse'
                }
              }
            }
          }
        }
      }
    },
    '/login': {
      'post': {
        'summary': 'Login User',
        'description': 'Authenticate user and get token',
        'tags': ['Authentication'],
        'requestBody': {
          'required': true,
          'content': {
            'application/json': {
              'schema': {
                '$ref': '#/components/schemas/LoginRequest'
              }
            }
          }
        },
        'responses': {
          '200': {
            'description': 'Login successful',
            'content': {
              'application/json': {
                'schema': {
                  '$ref': '#/components/schemas/LoginResponse'
                }
              }
            }
          },
          '400': {
            'description': 'Login failed',
            'content': {
              'application/json': {
                'schema': {
                  '$ref': '#/components/schemas/ErrorResponse'
                }
              }
            }
          }
        }
      }
    },".

(** Lines 436-467: [/users/{delay}] and the end of [paths]. *)
Definition spec_path_users_delay : string := "
    '/users/{delay}': {
      'get': {
        'summary': 'Delayed Response',
        'description': 'Get users list with artificial delay (for testing purposes)',
        'tags': ['Testing'],
        'parameters': [
          {
            'name': 'delay',
            'in': 'path',
            'required': true,
            'description': 'Delay in seconds',
            'schema': {
              'type': 'integer',
              'minimum': 1
            }
          }
        ],
        'responses': {
          '200': {
            'description': 'Success with delay',
            'content': {
              'application/json': {
                'schema': {
                  '$ref': '#/components/schemas/UsersListResponse'
                }
              }
            }
          }
        }
      }
    }
  },".

(** Lines 468-535: [components]: User, Resource, Support. *)
Definition spec_schemas_entities : string := "
  'components': {
    'schemas': {
      'User': {
        'type': 'object',
        'properties': {
          'id': {
            'type': 'integer',
            'description': 'User ID'
          },
          'email': {
            'type': 'string',
            'format': 'email',
            'description': 'User email address'
          },
          'first_name': {
            'type': 'string',
            'description': 'User first name'
          },
          'last_name': {
            'type': 'string',
            'description': 'User last name'
          },
          'avatar': {
            'type': 'string',
            'format': 'uri',
            'description': 'User avatar URL'
          }
        }
      },
      'Resource': {
        'type': 'object',
        'properties': {
          'id': {
            'type': 'integer',
            'description': 'Resource ID'
          },
          'name': {
            'type': 'string',
            'description': 'Resource name'
          },
          'year': {
            'type': 'integer',
            'description': 'Resource year'
          },
          'color': {
            'type': 'string',
            'description': 'Resource color code'
          },
          'pantone_value': {
            'type': 'string',
            'description': 'Pantone color value'
          }
        }
      },
      'Support': {
        'type': 'object',
        'properties': {
          'url': {
            'type': 'string',
            'format': 'uri',
            'description': 'Support URL'
          },
          'text': {
            'type': 'string',
            'description': 'Support text'
          }
        }
      },".

(** Lines 536-617: [components]: the list and single-item responses. *)
Definition spec_schemas_responses : string := "
      'UsersListResponse': {
        'type': 'object',
        'properties': {
          'page': {
            'type': 'integer',
            'description': 'Current page number'
          },
          'per_page': {
            'type': 'integer',
            'description': 'Number of items per page'
          },
          'total': {
            'type': 'integer',
            'description': 'Total number of items'
          },
          'total_pages': {
            'type': 'integer',
            'description': 'Total number of pages'
          },
          'data': {
            'type': 'array',
            'items': {
              '$ref': '#/components/schemas/User'
            }
          },
          'support': {
            '$ref': '#/components/schemas/Support'
          }
        }
      },
      'SingleUserResponse': {
        'type': 'object',
        'properties': {
          'data': {
            '$ref': '#/components/schemas/User'
          },
          'support': {
            '$ref': '#/components/schemas/Support'
          }
        }
      },
      'ResourcesListResponse': {
        'type': 'object',
        'properties': {
          'page': {
            'type': 'integer',
            'description': 'Current page number'
          },
          'per_page': {
            'type': 'integer',
            'description': 'Number of items per page'
          },
          'total': {
            'type': 'integer',
            'description': 'Total number of items'
          },
          'total_pages': {
            'type': 'integer',
            'description': 'Total number of pages'
          },
          'data': {
            'type': 'array',
            'items': {
              '$ref': '#/components/schemas/Resource'
            }
          },
          'support': {
            '$ref': '#/components/schemas/Support'
          }
        }
      },
      'SingleResourceResponse': {
        'type': 'object',
        'properties': {
          'data': {
            '$ref': '#/components/schemas/Resource'
          },
          'support': {
            '$ref': '#/components/schemas/Support'
          }
        }
      },".

(** Lines 618-684: [components]: the create and update bodies. *)
Definition spec_schemas_users : string := "
      'CreateUserRequest': {
        'type': 'object',
        'required': ['name', 'job'],
        'properties': {
          'name': {
            'type': 'string',
            'description': 'User name'
          },
          'job': {
            'type': 'string',
            'description': 'User job title'
          }
        }
      },
      'CreateUserResponse': {
        'type': 'object',
        'properties': {
          'name': {
            'type': 'string',
            'description': 'User name'
          },
          'job': {
            'type': 'string',
            'description': 'User job title'
          },
          'id': {
            'type': 'string',
            'description': 'Generated user ID'
          },
          'createdAt': {
            'type': 'string',
            'format': 'date-time',
            'description': 'Creation timestamp'
          }
        }
      },
      'UpdateUserRequest': {
        'type': 'object',
        'properties': {
          'name': {
            'type': 'string',
            'description': 'User name'
          },
          'job': {
            'type': 'string',
            'description': 'User job title'
          }
        }
      },
      'UpdateUserResponse': {
        'type': 'object',
        'properties': {
          'name': {
            'type': 'string',
            'description': 'User name'
          },
          'job': {
            'type': 'string',
            'description': 'User job title'
          },
          'updatedAt': {
            'type': 'string',
            'format': 'date-time',
            'description': 'Update timestamp'
          }
        }
      },".

(** Lines 685-748: [components]: register, login, error, and the closing braces. *)
Definition spec_schemas_auth : string := "
      'RegisterRequest': {
        'type': 'object',
        'required': ['email', 'password'],
        'properties': {
          'email': {
            'type': 'string',
            'format': 'email',
            'description': 'User email address'
          },
          'password': {
            'type': 'string',
            'description': 'User password'
          }
        }
      },
      'RegisterResponse': {
        'type': 'object',
        'properties': {
          'id': {
            'type': 'integer',
            'description': 'User ID'
          },
          'token': {
            'type': 'string',
            'description': 'Authentication token'
          }
        }
      },
      'LoginRequest': {
        'type': 'object',
        'required': ['email', 'password'],
        'properties': {
          'email': {
            'type': 'string',
            'format': 'email',
            'description': 'User email address'
          },
          'password': {
            'type': 'string',
            'description': 'User password'
          }
        }
      },
      'LoginResponse': {
        'type': 'object',
        'properties': {
          'token': {
            'type': 'string',
            'description': 'Authentication token'
          }
        }
      },
      'ErrorResponse': {
        'type': 'object',
        'properties': {
          'error': {
            'type': 'string',
            'description': 'Error message'
          }
        }
      }
    }
  }
}".

(** The line break before the closing triple quote. *)
Definition spec_tail : string := "
".

Definition openapi_spec_text : string :=
  spec_head +:+ spec_path_users +:+ spec_path_users_id +:+ spec_path_unknown
  +:+ spec_path_auth +:+ spec_path_users_delay +:+ spec_schemas_entities
  +:+ spec_schemas_responses +:+ spec_schemas_users +:+ spec_schemas_auth
  +:+ spec_tail.

(** Put the double quotes back. *)
Fixpoint requote (s : string) : string :=
  match s with
  | EmptyString => EmptyString
  | String c r => String (if Ascii.eqb c "'" then Json.dquote else c) (requote r)
  end.

Definition openapi_spec_string : string := requote openapi_spec_text.

(* ===================================================================== *)
(** * Reading a parsed document as an OpenAPI 3.0 description             *)
(* ===================================================================== *)

(** The script hands [openapi_spec_string] to the toolset constructor and
    checks nothing itself.  What follows states, on the parsed text, the
    rules of the OpenAPI Specification 3.0.3 that an OpenAPI 3.0 document
    has to meet: the fixed and required fields of each object, the
    correspondence between path templates and path parameters, and the
    resolution of references.  The sentence of the Paths Object on
    templated paths with the same hierarchy is left out: it is no rule on
    the form of an object, validators of OpenAPI 3.0 documents do not
    apply it, and the document describes [/users/{id}] and
    [/users/{delay}] as two operations of the API. *)

Module OpenAPI.
Import Json.

Definition is_string (j : json) : bool :=
  match j with JString _ => true | _ => false end.

Definition is_object (j : json) : bool :=
  match j with JObject _ => true | _ => false end.

Definition is_number (j : json) : bool :=
  match j with JInt _ | JReal _ => true | _ => false end.

Definition mem (s : string) (l : list string) : bool := existsb (String.eqb s) l.

Fixpoint nodupb (l : list string) : bool :=
  match l with
  | [] => true
  | x :: r => negb (mem x r) && nodupb r
  end.

(** A member that must be there and satisfy [p]; one that may be absent. *)
Definition required (k : string) (p : json -> bool) (j : json) : bool :=
  match obj_get k j with Some v => p v | None => false end.

Definition optional (k : string) (p : json -> bool) (j : json) : bool :=
  match obj_get k j with Some v => p v | None => true end.

Definition array_of (p : json -> bool) (j : json) : bool :=
  match j with JArray l => forallb p l | _ => false end.

Definition map_of (p : string -> json -> bool) (j : json) : bool :=
  match j with
  | JObject m => forallb (fun kv => p (fst kv) (snd kv)) m
  | _ => false
  end.

(** ** References *)

(** Every value held under the name [$ref], anywhere in [j]. *)
Fixpoint refs_of (j : json) : list json :=
  match j with
  | JArray l => flat_map refs_of l
  | JObject m =>
      flat_map (fun kv => let '(k, v) := kv in
                          (if String.eqb k "$ref" then [v] else []) ++ refs_of v) m
  | _ => []
  end.

Definition schema_prefix : string := "#/components/schemas/".

(** The schema a reference names, looked up under components/schemas. *)
Definition resolve (doc : json) (r : json) : option json :=
  match r with
  | JString s =>
      match strip_prefix schema_prefix s with
      | Some name => at_path ["components"; "schemas"; name] doc
      | None => None
      end
  | _ => None
  end.

Definition refs_resolve (doc : json) : bool :=
  forallb (fun r => bool_decide (is_Some (resolve doc r))) (refs_of doc).

(** ** Paths and servers *)

Definition paths_of (doc : json) : json := default JNull (obj_get "paths" doc).

Definition path_names (doc : json) : list string := obj_keys (paths_of doc).

Definition servers_of (doc : json) : list json :=
  arr_items (default JNull (obj_get "servers" doc)).

Definition server_urls (doc : json) : list (option string) :=
  map (get_string "url") (servers_of doc).

(** The names between braces in a path template, left to right. *)
Fixpoint template_scan (s : string) (cur : option string) : list string :=
  match s with
  | EmptyString => []
  | String c r =>
      match cur with
      | None => template_scan r (if Ascii.eqb c "{" then Some EmptyString else None)
      | Some n =>
          if Ascii.eqb c "}" then n :: template_scan r None
          else template_scan r (Some (n +:+ String c EmptyString))
      end
  end.

Definition template_names (p : string) : list string := template_scan p None.

(** ** The objects of the specification *)

Definition schema_types : list string :=
  ["array"; "boolean"; "integer"; "number"; "object"; "string"].

Definition string_list (j : json) : list string :=
  flat_map (fun v => match v with JString s => [s] | _ => [] end) (arr_items j).

(** Schema Object, or a Reference Object in its place. *)
Fixpoint valid_schema (j : json) : bool :=
  match j with
  | JObject m =>
      match assoc_last "$ref" m with
      | Some r => is_string r
      | None =>
          forallb
            (fun kv =>
               let '(k, v) := kv in
               if String.eqb k "type" then
                 match v with JString t => mem t schema_types | _ => false end
               else if String.eqb k "properties" then
                 match v with
                 | JObject ps => forallb (fun kv' => let '(_, s) := kv' in valid_schema s) ps
                 | _ => false
                 end
               else if String.eqb k "items" || String.eqb k "not" then valid_schema v
               else if String.eqb k "additionalProperties" then
                 match v with JBool _ => true | _ => valid_schema v end
               else if mem k ["allOf"; "oneOf"; "anyOf"] then
                 match v with JArray l => forallb valid_schema l | _ => false end
               else if String.eqb k "required" then
                 match v with
                 | JArray (_ :: _ as l) => forallb is_string l && nodupb (string_list v)
                 | _ => false
                 end
               else if mem k ["title"; "description"; "format"; "pattern"] then is_string v
               else if mem k ["minimum"; "maximum"; "multipleOf"] then is_number v
               else true)
            m
          && (match assoc_last "type" m with
              | Some (JString "array") => bool_decide (is_Some (assoc_last "items" m))
              | _ => true
              end)
      end
  | _ => false
  end.

(** A [content] map: media type to Media Type Object. *)
Definition valid_content (j : json) : bool :=
  map_of (fun _ mt => is_object mt && optional "schema" valid_schema mt) j.

Definition is_ref (j : json) : bool := required "$ref" is_string j.

(** Response Object. *)
Definition valid_response (j : json) : bool :=
  is_ref j
  || (is_object j && required "description" is_string j
      && optional "content" valid_content j).

Definition status_digit (c : ascii) : bool := is_digit c || Ascii.eqb c "X".

Definition valid_status (k : string) : bool :=
  String.eqb k "default"
  || match k with
     | String a (String b (String c EmptyString)) =>
         mem (String a EmptyString) ["1"; "2"; "3"; "4"; "5"]
         && status_digit b && status_digit c
     | _ => false
     end.

(** Responses Object: at least one response, under a status code or
    [default]. *)
Definition valid_responses (j : json) : bool :=
  match j with
  | JObject (_ :: _ as m) =>
      forallb (fun kv => valid_status (fst kv) && valid_response (snd kv)) m
  | _ => false
  end.

Definition parameter_places : list string := ["query"; "header"; "path"; "cookie"].

(** Parameter Object: a name, a place, a schema or a content; a path
    parameter is required. *)
Definition valid_parameter (j : json) : bool :=
  is_ref j
  || (is_object j && required "name" is_string j
      && match get_string "in" j with
         | Some place =>
             mem place parameter_places
             && (if String.eqb place "path"
                 then match obj_get "required" j with Some (JBool true) => true | _ => false end
                 else optional "required" (fun v => match v with JBool _ => true | _ => false end) j)
         | None => false
         end
      && match obj_get "schema" j, obj_get "content" j with
         | Some s, None => valid_schema s
         | None, Some c => valid_content c
         | _, _ => false
         end).

(** (name, place) of each parameter of a list. *)
Definition parameter_keys (ps : list json) : list string :=
  flat_map (fun p => match get_string "name" p, get_string "in" p with
                     | Some n, Some i => [i +:+ ":" +:+ n]
                     | _, _ => []
                     end) ps.

Definition path_parameters (ps : list json) : list string :=
  flat_map (fun p => match get_string "name" p, get_string "in" p with
                     | Some n, Some "path" => [n]
                     | _, _ => []
                     end) ps.

Definition valid_request_body (j : json) : bool :=
  is_ref j || (is_object j && required "content" valid_content j).

(** Operation Object. *)
Definition valid_operation (j : json) : bool :=
  is_object j
  && required "responses" valid_responses j
  && optional "parameters" (array_of valid_parameter) j
  && nodupb (parameter_keys (arr_items (default JNull (obj_get "parameters" j))))
  && optional "requestBody" valid_request_body j
  && optional "tags" (array_of is_string) j
  && optional "summary" is_string j
  && optional "description" is_string j
  && optional "operationId" is_string j.

Definition methods : list string :=
  ["get"; "put"; "post"; "delete"; "options"; "head"; "patch"; "trace"].

Definition operations_of (item : json) : list json :=
  flat_map (fun kv => if mem (fst kv) methods then [snd kv] else []) (obj_members item).

(** The path parameters an operation sees: its own and the path item's. *)
Definition visible_path_parameters (item op : json) : list string :=
  path_parameters (arr_items (default JNull (obj_get "parameters" op)))
    ++ path_parameters (arr_items (default JNull (obj_get "parameters" item))).

(** Path Item Object under the template [path]: fixed fields only, and in
    every operation the template expressions and the path parameters are
    the same names. *)
Definition valid_path_item (path : string) (item : json) : bool :=
  has_prefix "/" path
  && map_of (fun k v =>
               if mem k methods then valid_operation v
               else if String.eqb k "parameters" then array_of valid_parameter v
               else if mem k ["summary"; "description"; "$ref"] then is_string v
               else if String.eqb k "servers" then array_of is_object v
               else has_prefix "x-" k) item
  && forallb (fun op =>
                let ps := visible_path_parameters item op in
                forallb (fun n => mem n ps) (template_names path)
                && forallb (fun n => mem n (template_names path)) ps)
       (operations_of item).

Definition operation_ids (doc : json) : list string :=
  flat_map (fun kv =>
              flat_map (fun op => match get_string "operationId" op with
                                  | Some i => [i]
                                  | None => []
                                  end) (operations_of (snd kv)))
    (obj_members (paths_of doc)).

Definition component_name_char (c : ascii) : bool :=
  let n := nat_of_ascii c in
  ((48 <=? n) && (n <=? 57) || (65 <=? n) && (n <=? 90) || (97 <=? n) && (n <=? 122))%nat
  || mem (String c EmptyString) ["."; "-"; "_"].

Definition valid_component_name (k : string) : bool :=
  negb (String.eqb k EmptyString) && forallb component_name_char (list_ascii_of_string k).

Definition root_fields : list string :=
  ["openapi"; "info"; "servers"; "paths"; "components"; "security"; "tags"; "externalDocs"].

(** No object of the document names a member twice. *)
Fixpoint unique_members (j : json) : bool :=
  match j with
  | JArray l => forallb unique_members l
  | JObject m =>
      nodupb (map fst m) && forallb (fun kv => let '(_, v) := kv in unique_members v) m
  | _ => true
  end.

(** The rules on the objects of the document, one by one: OpenAPI,
    Info, Server, Paths, Path Item, Operation, Parameter, Request Body,
    Responses, Response, Media Type, Components and Schema Objects. *)
Definition well_formed (doc : json) : bool :=
  is_object doc
  && unique_members doc
  && forallb (fun k => mem k root_fields || has_prefix "x-" k) (obj_keys doc)
  && required "openapi" (fun v => match v with JString s => has_prefix "3.0." s | _ => false end) doc
  && required "info" (fun i => required "title" is_string i && required "version" is_string i) doc
  && optional "servers" (array_of (fun s => is_object s && required "url" is_string s)) doc
  && required "paths" (map_of valid_path_item) doc
  && nodupb (operation_ids doc)
  && optional "components"
       (fun c => is_object c
                 && optional "schemas"
                      (map_of (fun k s => valid_component_name k && valid_schema s)) c) doc.

(** A valid OpenAPI 3.0 document: well formed, with every reference
    resolved. *)
Definition valid (doc : json) : bool := well_formed doc && refs_resolve doc.

End OpenAPI.

(* ===================================================================== *)
(** * The objects the script builds and receives                          *)
(* ===================================================================== *)

(** Exceptions, by the part of the class hierarchy the script tells
    apart: [except Exception] takes every class but [NotAnException]
    (KeyboardInterrupt, SystemExit, asyncio.CancelledError: subclasses of
    BaseException only), [except RuntimeError] takes [RuntimeError]. *)
Inductive exn_class : Type :=
| ValueError
| AttributeError
| RuntimeError
| OtherException
| NotAnException.

Record exn : Type := Exn { exn_class_of : exn_class; exn_str : string }.

Definition is_Exception (e : exn) : bool :=
  match exn_class_of e with
  | NotAnException => false
  | _ => true
  end.

Definition is_RuntimeError (e : exn) : bool :=
  match exn_class_of e with
  | RuntimeError => true
  | _ => false
  end.

(** [types.Part] and [types.Content]: the text of a part may be [None]. *)
Record Part : Type := { text : option string }.
Record Content : Type := { role : string; parts : list Part }.

(** A function call and a function response of an event; [call_args] is
    the dict of arguments as the f-string prints it. *)
Record FunctionCall : Type := { call_name : string; call_args : string }.
Record FunctionResponse : Type := { response_name : string }.

(** An event of the runner, by what the script reads from it.  [content]
    is [None] or a [Content]; an empty [parts] stands for both [None] and
    the empty list, which the script's test treats alike. *)
Record Event : Type := {
  get_function_calls : list FunctionCall;
  get_function_responses : list FunctionResponse;
  is_final_response : bool;
  content : option Content
}.

(** What one call of [runner.run_async] delivers: the events it yields,
    in order, and how the generator ends, by exhaustion ([None]) or by
    raising.  A run that yields forever is outside this model. *)
Record Run : Type := { run_events : list Event; run_error : option exn }.

Record StdioServerParameters : Type := { command : string; args : list string }.
Record StdioConnectionParams : Type := { server_params : StdioServerParameters }.

Inductive Toolset : Type :=
| OpenAPIToolset (spec_str spec_str_type : string)
| MCPToolset (connection_params : StdioConnectionParams).

Record LlmAgent : Type := {
  name : string;
  model : string;
  tools : list Toolset;
  instruction : string;
  description : string
}.

(** The runner; its session service is the one [InMemorySessionService]
    made just before it. *)
Record Runner : Type := { agent : LlmAgent; app_name : string }.

Inductive object : Type :=
| ObjToolset (t : Toolset)
| ObjAgent (a : LlmAgent)
| ObjSessionService
| ObjRunner (r : Runner).

(** What the script does to the world around it, in the order it does
    it.  [RunAsync] is the call that makes the generator of a run;
    [Yield gen ev] is an event handed to the [async for] by the generator
    numbered [gen] (the runs are numbered from 0 in the order of their
    submission); [Finish gen err] is the end of that generator. *)
Inductive action : Type :=
| Setenv (key value : string)
| Construct (o : object)
| CreateSession (app user session : string)
| Print (line : string)
| PrintExc (e : exn)
| RunAsync (user session : string) (new_message : Content)
| Yield (gen : nat) (ev : Event)
| Finish (gen : nat) (err : option exn).

(* ===================================================================== *)
(** * The libraries the script calls                                      *)
(* ===================================================================== *)

Class Runtime : Type := {
  (** [load_dotenv()]: the environment after the .env file is merged in *)
  load_dotenv : gmap string string -> gmap string string;
  (** [str(uuid.uuid4())] *)
  uuid4 : string;
  (** [__file__] and the functions of [os.path] *)
  module_file : string;
  path_abspath : string -> string;
  path_dirname : string -> string;
  path_join : string -> string -> string;
  (** [str.strip] *)
  str_strip : string -> string;
  (** whether [asyncio.run] finds an event loop already running *)
  loop_running : bool;
  (** the run a runner gives for a message, after all that happened so
      far *)
  run_async : Runner -> list action -> string -> string -> Content -> Run
}.

(* ===================================================================== *)
(** * State, exceptions and the log                                       *)
(* ===================================================================== *)

Record world : Type := { environ : gmap string string; log : list action }.

Inductive outcome (A : Type) : Type :=
| Returned (a : A)
| Raised (e : exn).
Arguments Returned {A} a.
Arguments Raised {A} e.

(** A computation of the script: from a world to a value or a raised
    exception, and the world after it. *)
Definition M (A : Type) : Type := world -> outcome A * world.

#[global] Instance M_ret : MRet M := fun A a w => (Returned a, w).

#[global] Instance M_bind : MBind M := fun A B f m w =>
  match m w with
  | (Returned a, w') => f a w'
  | (Raised e, w') => (Raised e, w')
  end.

Definition raise {A : Type} (e : exn) : M A := fun w => (Raised e, w).

(** [try: body except <classes> as e: handler e] *)
Definition try_except {A : Type} (catches : exn -> bool) (body : M A) (handler : exn -> M A)
  : M A :=
  fun w =>
    match body w with
    | (Raised e, w') => if catches e then handler e w' else (Raised e, w')
    | r => r
    end.

Definition perform (a : action) : M unit :=
  fun w => (Returned tt, {| environ := environ w; log := log w ++ [a] |}).

Definition print (line : string) : M unit := perform (Print line).

Definition history : M (list action) := fun w => (Returned (log w), w).

Definition getenv (k : string) : M (option string) := fun w => (Returned (environ w !! k), w).

Definition setenv (k v : string) : M unit :=
  fun w => (Returned tt, {| environ := <[k := v]> (environ w); log := log w ++ [Setenv k v] |}).

(** The messages given to the runner, and their number. *)
Definition submitted (l : list action) : list Content :=
  flat_map (fun a => match a with RunAsync _ _ c => [c] | _ => [] end) l.

Definition is_submit (a : action) : bool :=
  match a with RunAsync _ _ _ => true | _ => false end.

(* ===================================================================== *)
(** * The script                                                          *)
(* ===================================================================== *)

(** The instruction text of the agent (lines 777-796), as it stands. *)
Definition agent_instruction : string := "You are a versatile assistant that can:

    1. MANAGE WEATHER via API:
       - List available users and resources
       - Create new users
       - Update existing users
       - Get details for specific users
       - List resources and their details
       - Register and login users
       - Handle delayed responses for testing purposes
       - Manage weather alerts (if applicable)

    2. MANAGE FILES in the filesystem:
       - List directories and files
       - Read file contents
       - Navigate through folders
    When there is a request about users use the users_tools, without API KEY or any other credential.
    Remember the users actions dont require authentication.
    When the user asks about files, folders, or filesystem operations, use the filesystem tools.
    ".

Definition newline : string := String "010"%char EmptyString.

Section Script.
Context {R : Runtime}.

(** ** Lines 31-42: the credential *)

Definition missing_key : exn :=
  Exn ValueError
    "GOOGLE_API_KEY no encontrada en las variables de entorno. Asegúrate de que esté definida en tu archivo .env".

Definition dotenv : M unit :=
  fun w => (Returned tt, {| environ := load_dotenv (environ w); log := log w |}).

(** [if not google_api_key: raise ValueError(...)]: [None] and the empty
    string are the two falsy values; then the key is written back. *)
Definition credential : M string :=
  dotenv ;;
  google_api_key ← getenv "GOOGLE_API_KEY";
  match google_api_key with
  | None | Some EmptyString => raise missing_key
  | Some key => setenv "GOOGLE_API_KEY" key ;; mret key
  end.

(** ** Lines 44-52: constants *)

Definition APP_NAME : string := "combined_openapi_mcp_app".
Definition USER_ID : string := "user_combined_1".
Definition SESSION_ID : string := "session_combined_" +:+ uuid4.
Definition AGENT_NAME : string := "combined_assistant_agent".
Definition GEMINI_MODEL : string := "gemini-2.5-flash".

Definition TARGET_FOLDER_PATH : string :=
  path_join (path_dirname (path_abspath module_file))
    "/home/cetec/AIProjects/adk_openapi/adk_test".

(** ** Lines 751-798: the toolsets and the agent *)

Definition users_toolset : Toolset := OpenAPIToolset openapi_spec_string "json".

Definition filesystem_toolset : Toolset :=
  MCPToolset
    {| server_params :=
         {| command := "npx";
            args := ["-y"; "@modelcontextprotocol/server-filesystem";
                     path_abspath TARGET_FOLDER_PATH] |} |}.

Definition root_agent : LlmAgent :=
  {| name := AGENT_NAME;
     model := GEMINI_MODEL;
     tools := [users_toolset; filesystem_toolset];
     instruction := agent_instruction;
     description :=
       "A combined assistant that manages both users via API and files via filesystem." |}.

(** The module body, down to the last definition. *)
Definition module_body : M unit :=
  credential ;;
  perform (Construct (ObjToolset users_toolset)) ;;
  perform (Construct (ObjToolset filesystem_toolset)) ;;
  perform (Construct (ObjAgent root_agent)).

(** ** Lines 800-813 *)

Definition setup_session_and_runner : M Runner :=
  perform (Construct ObjSessionService) ;;
  let runner := {| agent := root_agent; app_name := APP_NAME |} in
  perform (Construct (ObjRunner runner)) ;;
  perform (CreateSession APP_NAME USER_ID SESSION_ID) ;;
  mret runner.

(** ** Lines 815-844 *)

(** The body of the [async for], for one event. *)
Definition handle_event (event : Event) (final_response_text : string) : M string :=
  match get_function_calls event with
  | call :: _ =>
      print ("  🔧 Agent Action: Called '" +:+ call_name call
             +:+ "' with args " +:+ call_args call) ;;
      mret final_response_text
  | [] =>
      match get_function_responses event with
      | response :: _ =>
          print ("  ✅ Tool Response: Function '" +:+ response_name response
                 +:+ "' completed") ;;
          mret final_response_text
      | [] =>
          if is_final_response event then
            match content event with
            | Some c =>
                match parts c with
                | part :: _ =>
                    match text part with
                    | Some t => mret (str_strip t)
                    | None =>
                        raise (Exn AttributeError
                                 "'NoneType' object has no attribute 'strip'")
                    end
                | [] => mret final_response_text
                end
            | None => mret final_response_text
            end
          else mret final_response_text
      end
  end.

(** [async for event in <generator gen>: ...], over what is left of the
    run.  When the body raises, the loop is left with the generator where
    it stands: the script resumes it no more and has no call that closes
    it, so nothing of it is logged from then on. *)
Fixpoint async_for (gen : nat) (events : list Event) (err : option exn)
  (final_response_text : string) : M string :=
  match events with
  | [] =>
      perform (Finish gen err) ;;
      match err with
      | None => mret final_response_text
      | Some e => raise e
      end
  | event :: rest =>
      perform (Yield gen event) ;;
      final_response_text' ← handle_event event final_response_text;
      async_for gen rest err final_response_text'
  end.

Definition user_content (query : string) : Content :=
  {| role := "user"; parts := [{| text := Some query |}] |}.

(** The two assignments before the [try] and the [try] block itself: the
    call of [runner.run_async], the loop over its events and the line with
    the final response. *)
Definition agent_run (query : string) (runner : Runner) : M unit :=
  let content := user_content query in
  let final_response_text := "Agent did not provide a final text response." in
  before ← history;
  perform (RunAsync USER_ID SESSION_ID content) ;;
  let run := run_async runner before USER_ID SESSION_ID content in
  final_response_text' ←
    async_for (length (submitted before)) (run_events run) (run_error run)
      final_response_text;
  print ("🤖 Agent Final Response: " +:+ final_response_text').

Definition report_error (e : exn) : M unit :=
  print ("❌ Error during agent run: " +:+ exn_str e) ;;
  perform (PrintExc e).

Definition rule : string := "--------------------------------------------------".

Definition call_combined_agent_async (query : string) (runner : Runner) : M unit :=
  print (newline +:+ "--- Combined Agent Query ---") ;;
  print ("Query: " +:+ query) ;;
  try_except is_Exception (agent_run query runner) report_error ;;
  print rule.

(** ** Lines 846-863 *)

Definition run_combined_example : M unit :=
  runner ← setup_session_and_runner;
  print "=== TESTING PET STORE API ===" ;;
  call_combined_agent_async "Show me available pets in the store" runner ;;
  call_combined_agent_async "Add a new cat named 'Whiskers' to the store" runner ;;
  call_combined_agent_async "Get details for pet ID 456" runner ;;
  print (newline +:+ "=== TESTING FILESYSTEM ===") ;;
  call_combined_agent_async "List the files in the current directory" runner ;;
  call_combined_agent_async "What files are available to read?" runner ;;
  print (newline +:+ "=== TESTING MIXED FUNCTIONALITY ===") ;;
  call_combined_agent_async
    "Create a pet named 'Buddy' and then show me what files I have" runner.

(** ** Lines 865-875 *)

Definition contains (needle hay : string) : bool :=
  bool_decide (is_Some (String.index 0 needle hay)).

(** [asyncio.run(coroutine)] *)
Definition asyncio_run {A : Type} (coroutine : M A) : M A :=
  if loop_running
  then raise (Exn RuntimeError "asyncio.run() cannot be called from a running event loop")
  else coroutine.

Definition main : M unit :=
  print "🚀 Executing Combined OpenAPI + MCP Agent Example..." ;;
  try_except is_RuntimeError (asyncio_run run_combined_example)
    (fun e =>
       if contains "cannot be called from a running event loop" (exn_str e)
       then print "ℹ️  Cannot run asyncio.run from a running event loop (e.g., Jupyter/Colab)."
       else raise e) ;;
  print "✅ Combined agent example finished.".

(** The file run as a script. *)
Definition script : M unit := module_body ;; main.

Definition start (env : gmap string string) : world := {| environ := env; log := [] |}.

End Script.

(* ===================================================================== *)
(** * Reading a log                                                       *)
(* ===================================================================== *)

(** [w] with [l] added to its log. *)
Definition extend (w : world) (l : list action) : world :=
  {| environ := environ w; log := log w ++ l |}.

Definition constructed (l : list action) : list object :=
  flat_map (fun a => match a with Construct o => [o] | _ => [] end) l.

Definition constructed_agents (l : list action) : list LlmAgent :=
  flat_map (fun o => match o with ObjAgent a => [a] | _ => [] end) (constructed l).

(** The text of the first part of each message given to the runner. *)
Definition submitted_texts (l : list action) : list (option string) :=
  map (fun c => match parts c with
                | p :: _ => text p
                | [] => None
                end) (submitted l).

Definition is_print (a : action) : bool :=
  match a with Print _ => true | _ => false end.

(** The generator of a run came to its end. *)
Definition run_finished (a : action) : bool :=
  match a with Finish _ _ => true | _ => false end.

(** The run is over for the script: its generator came to its end, or an
    exception was caught and its trace printed. *)
Definition run_over (a : action) : bool :=
  match a with Finish _ _ | PrintExc _ => true | _ => false end.

(** The line that reports on a prompt: the final response or the error. *)
Definition is_report (a : action) : bool :=
  match a with
  | Print line =>
      Json.has_prefix "🤖 Agent Final Response: " line
      || Json.has_prefix "❌ Error during agent run: " line
  | _ => false
  end.

(** Every submission in [l] comes when no run is open: [busy] says whether
    one is open at the start of [l], a submission opens one, and an action
    that [closes] ends it. *)
Fixpoint submits_when_idle (closes : action -> bool) (busy : bool) (l : list action) : bool :=
  match l with
  | [] => true
  | a :: r =>
      if is_submit a then negb busy && submits_when_idle closes true r
      else submits_when_idle closes (busy && negb (closes a)) r
  end.

Fixpoint busy_after (closes : action -> bool) (busy : bool) (l : list action) : bool :=
  match l with
  | [] => busy
  | a :: r =>
      if is_submit a then busy_after closes true r
      else busy_after closes (busy && negb (closes a)) r
  end.

(** What follows a submission in a log: prints, events and the end of the
    generator [gen], traces of exceptions; no other submission. *)
Definition within_run (gen : nat) (a : action) : bool :=
  match a with
  | Print _ | PrintExc _ => true
  | Yield g _ | Finish g _ => Nat.eqb g gen
  | _ => false
  end.

(** Every exception a run of the runner ends with is an [Exception]. *)
Definition generic_only (R : Runtime) : Prop :=
  forall runner before user session message e,
    run_error (run_async runner before user session message) = Some e ->
    is_Exception e = true.

(** ** The demo as a list of steps *)

Inductive step : Type :=
| Say (line : string)
| Ask (query : string).

Definition demo_steps : list step :=
  [ Say "=== TESTING PET STORE API ===";
    Ask "Show me available pets in the store";
    Ask "Add a new cat named 'Whiskers' to the store";
    Ask "Get details for pet ID 456";
    Say (newline +:+ "=== TESTING FILESYSTEM ===");
    Ask "List the files in the current directory";
    Ask "What files are available to read?";
    Say (newline +:+ "=== TESTING MIXED FUNCTIONALITY ===");
    Ask "Create a pet named 'Buddy' and then show me what files I have" ].

Definition queries (l : list step) : list string :=
  flat_map (fun s => match s with Ask q => [q] | Say _ => [] end) l.

(** The prompts of the demo, in the order of their calls. *)
Definition demo_prompts : list string := queries demo_steps.

Fixpoint run_steps {R : Runtime} (runner : Runner) (l : list step) : M unit :=
  match l with
  | [] => mret tt
  | Say line :: r => print line ;; run_steps runner r
  | Ask query :: r => call_combined_agent_async query runner ;; run_steps runner r
  end.

(** ** Three runtimes to run the script on *)

(** No .env file, identity path functions, and a runner that yields
    nothing. *)
Definition quiet_runtime : Runtime :=
  {| load_dotenv := fun env => env;
     uuid4 := "00000000-0000-4000-8000-000000000000";
     module_file := "/srv/adk_test/agent.py";
     path_abspath := fun p => p;
     path_dirname := fun p => p;
     path_join := fun a b => b;
     str_strip := fun s => s;
     loop_running := false;
     run_async := fun _ _ _ _ _ => {| run_events := []; run_error := None |} |}.

(** A final response whose first part holds no text (an image, say), and
    one that holds text. *)
Definition image_event : Event :=
  {| get_function_calls := [];
     get_function_responses := [];
     is_final_response := true;
     content := Some {| role := "model"; parts := [{| text := None |}] |} |}.

Definition text_event : Event :=
  {| get_function_calls := [];
     get_function_responses := [];
     is_final_response := true;
     content := Some {| role := "model"; parts := [{| text := Some "done" |}] |} |}.

(** A runner whose every run yields the two, in that order. *)
Definition image_runtime : Runtime :=
  {| load_dotenv := fun env => env;
     uuid4 := "00000000-0000-4000-8000-000000000000";
     module_file := "/srv/adk_test/agent.py";
     path_abspath := fun p => p;
     path_dirname := fun p => p;
     path_join := fun a b => b;
     str_strip := fun s => s;
     loop_running := false;
     run_async := fun _ _ _ _ _ =>
       {| run_events := [image_event; text_event]; run_error := None |} |}.

(** A runner whose every run raises at once. *)
Definition failing_runtime : Runtime :=
  {| load_dotenv := fun env => env;
     uuid4 := "00000000-0000-4000-8000-000000000000";
     module_file := "/srv/adk_test/agent.py";
     path_abspath := fun p => p;
     path_dirname := fun p => p;
     path_join := fun a b => b;
     str_strip := fun s => s;
     loop_running := false;
     run_async := fun _ _ _ _ _ =>
       {| run_events := [];
          run_error := Some (Exn OtherException "503 Service Unavailable") |} |}.

(** The environment with the key set to [v] and nothing else. *)
Definition env_with_key (v : string) : gmap string string := {[ "GOOGLE_API_KEY" := v ]}.

(** ** The log of one prompt *)

Definition query_header (query : string) : list action :=
  [Print (newline +:+ "--- Combined Agent Query ---"); Print ("Query: " +:+ query)].

(** The two header lines, the submission, and what follows it. *)
Definition round_log {R : Runtime} (query : string) (rest : list action) : list action :=
  query_header query ++ RunAsync USER_ID SESSION_ID (user_content query) :: rest.

(** What [setup_session_and_runner] adds to the log. *)
Definition setup_log {R : Runtime} : list action :=
  [Construct ObjSessionService;
   Construct (ObjRunner {| agent := root_agent; app_name := APP_NAME |});
   CreateSession APP_NAME USER_ID SESSION_ID].

(** The parsed document; [JNull] if the text were not JSON. *)
Definition openapi_document : Json.json := default Json.JNull (Json.loads openapi_spec_string).

(** The events handed to the script, in order. *)
Definition delivered (l : list action) : list Event :=
  flat_map (fun a => match a with Yield _ ev => [ev] | _ => [] end) l.

(** ** What the loop does with one event, and with a run *)

(** What the body of the [async for] makes of an event: the final
    response text is kept, set, or the body raises.  Only an event with no
    function call and no function response is read for its text. *)
Inductive reading : Type :=
| Keeps
| Sets (t : string)
| Fails.

Definition read_event {R : Runtime} (ev : Event) : reading :=
  match get_function_calls ev, get_function_responses ev with
  | [], [] =>
      if is_final_response ev then
        match content ev with
        | Some c =>
            match parts c with
            | part :: _ =>
                match text part with
                | Some t => Sets (str_strip t)
                | None => Fails
                end
            | [] => Keeps
            end
        | None => Keeps
        end
      else Keeps
  | _, _ => Keeps
  end.

Definition handles_cleanly {R : Runtime} (ev : Event) : bool :=
  match read_event ev with
  | Fails => false
  | _ => true
  end.

(** The texts the events of a run set, in order. *)
Definition final_texts {R : Runtime} (evs : list Event) : list string :=
  flat_map (fun ev => match read_event ev with Sets t => [t] | _ => [] end) evs.

(** The line an event prints, if any: its first call, or else its first
    response. *)
Definition event_lines (ev : Event) : list action :=
  match get_function_calls ev with
  | call :: _ =>
      [Print ("  🔧 Agent Action: Called '" +:+ call_name call
              +:+ "' with args " +:+ call_args call)]
  | [] =>
      match get_function_responses ev with
      | response :: _ =>
          [Print ("  ✅ Tool Response: Function '" +:+ response_name response
                  +:+ "' completed")]
      | [] => []
      end
  end.

(** What [None.strip()] raises. *)
Definition no_strip : exn :=
  Exn AttributeError "'NoneType' object has no attribute 'strip'".

Definition default_final_text : string := "Agent did not provide a final text response.".

(** The log and the result of the [async for] over a run, written out. *)
Fixpoint loop_trace {R : Runtime} (gen : nat) (evs : list Event) (err : option exn)
  (final : string) : list action * outcome string :=
  match evs with
  | [] => ([Finish gen err],
           match err with None => Returned final | Some e => Raised e end)
  | ev :: rest =>
      match read_event ev with
      | Fails => (Yield gen ev :: event_lines ev, Raised no_strip)
      | Keeps =>
          let '(l, o) := loop_trace gen rest err final in
          (Yield gen ev :: event_lines ev ++ l, o)
      | Sets t =>
          let '(l, o) := loop_trace gen rest err t in
          (Yield gen ev :: event_lines ev ++ l, o)
      end
  end.

(** The run the runner gives for [query], asked after the log [before]. *)
Definition run_of {R : Runtime} (runner : Runner) (before : list action) (query : string)
  : Run :=
  run_async runner (before ++ query_header query) USER_ID SESSION_ID (user_content query).

(** The log and the result of one call of [call_combined_agent_async],
    written out. *)
Definition call_trace {R : Runtime} (runner : Runner) (before : list action) (query : string)
  : list action * outcome unit :=
  let run := run_of runner before query in
  let '(mid, o) :=
    loop_trace (length (submitted before)) (run_events run) (run_error run)
      default_final_text in
  match o with
  | Returned t =>
      (round_log query (mid ++ [Print ("🤖 Agent Final Response: " +:+ t); Print rule]),
       Returned tt)
  | Raised e =>
      if is_Exception e
      then (round_log query
              (mid ++ [Print ("❌ Error during agent run: " +:+ exn_str e); PrintExc e;
                       Print rule]),
            Returned tt)
      else (round_log query mid, Raised e)
  end.

(** ** More readings of a log *)

Definition sessions_created (l : list action) : list (string * string * string) :=
  flat_map (fun a => match a with CreateSession a u s => [(a, u, s)] | _ => [] end) l.

(** The user and the session of each submission. *)
Definition submission_keys (l : list action) : list (string * string) :=
  flat_map (fun a => match a with RunAsync u s _ => [(u, s)] | _ => [] end) l.

Definition reports (l : list action) : list action := List.filter is_report l.

Definition is_final_line (a : action) : bool :=
  match a with
  | Print line => Json.has_prefix "🤖 Agent Final Response: " line
  | _ => false
  end.

(** No [Say] of the list prints a line that reads as a report. *)
Definition says_no_report (l : list step) : bool :=
  forallb (fun s => match s with
                    | Say line => negb (is_report (Print line))
                    | Ask _ => true
                    end) l.

(** The three lines of [main]. *)
Definition start_line : string := "🚀 Executing Combined OpenAPI + MCP Agent Example...".
Definition loop_line : string :=
  "ℹ️  Cannot run asyncio.run from a running event loop (e.g., Jupyter/Colab).".
Definition finish_line : string := "✅ Combined agent example finished.".

(** ** More runtimes *)

(** As [quiet_runtime], inside a running event loop (a notebook). *)
Definition notebook_runtime : Runtime :=
  {| load_dotenv := fun env => env;
     uuid4 := "00000000-0000-4000-8000-000000000000";
     module_file := "/srv/adk_test/agent.py";
     path_abspath := fun p => p;
     path_dirname := fun p => p;
     path_join := fun a b => b;
     str_strip := fun s => s;
     loop_running := true;
     run_async := fun _ _ _ _ _ => {| run_events := []; run_error := None |} |}.

(** A runner whose every run is interrupted from the keyboard. *)
Definition interrupted : exn := Exn NotAnException "KeyboardInterrupt".

Definition interrupted_runtime : Runtime :=
  {| load_dotenv := fun env => env;
     uuid4 := "00000000-0000-4000-8000-000000000000";
     module_file := "/srv/adk_test/agent.py";
     path_abspath := fun p => p;
     path_dirname := fun p => p;
     path_join := fun a b => b;
     str_strip := fun s => s;
     loop_running := false;
     run_async := fun _ _ _ _ _ => {| run_events := []; run_error := Some interrupted |} |}.

(** A call of a tool, its response, and two final responses with text. *)
Definition call_event : Event :=
  {| get_function_calls :=
       [{| call_name := "list_users"; call_args := "{'page': 1}" |};
        {| call_name := "list_resources"; call_args := "{}" |}];
     get_function_responses := [];
     is_final_response := false;
     content := None |}.

Definition response_event : Event :=
  {| get_function_calls := [];
     get_function_responses := [{| response_name := "list_users" |}];
     is_final_response := false;
     content := None |}.

Definition draft_event : Event :=
  {| get_function_calls := [];
     get_function_responses := [];
     is_final_response := true;
     content := Some {| role := "model"; parts := [{| text := Some "draft" |}] |} |}.

Definition chatty_runtime : Runtime :=
  {| load_dotenv := fun env => env;
     uuid4 := "00000000-0000-4000-8000-000000000000";
     module_file := "/srv/adk_test/agent.py";
     path_abspath := fun p => p;
     path_dirname := fun p => p;
     path_join := fun a b => b;
     str_strip := fun s => s;
     loop_running := false;
     run_async := fun _ _ _ _ _ =>
       {| run_events := [call_event; response_event; draft_event; text_event];
          run_error := None |} |}.

(** ** The demo, round by round *)

(** The events of a run that the loop reads: all of them up to, and with,
    the first one whose handling raises. *)
Fixpoint read_part {R : Runtime} (evs : list Event) : list Event :=
  match evs with
  | [] => []
  | ev :: rest => if handles_cleanly ev then ev :: read_part rest else [ev]
  end.

(** The events handed to the script before the next submission. *)
Fixpoint round_events (l : list action) : list Event :=
  match l with
  | [] => []
  | RunAsync _ _ _ :: _ => []
  | Yield _ ev :: r => ev :: round_events r
  | _ :: r => round_events r
  end.

(** Each submission of [l] is followed, before the next one, by the events
    the loop reads of the run the runner gives for it; [before] is the log
    that precedes [l]. *)
Fixpoint reads_its_run {R : Runtime} (runner : Runner) (before l : list action) : Prop :=
  match l with
  | [] => True
  | a :: r =>
      match a with
      | RunAsync user session message =>
          round_events r
          = read_part (run_events (run_async runner before user session message))
      | _ => True
      end
      /\ reads_its_run runner (before ++ [a]) r
  end.

(** The script stops reading a run: its generator came to its end, or the
    handling of the event just read raises. *)
Definition reading_ends {R : Runtime} (a : action) : bool :=
  match a with
  | Finish _ _ => true
  | Yield _ ev => negb (handles_cleanly ev)
  | _ => false
  end.

(** A final response was handed to the script. *)
Definition final_response_arrived (a : action) : bool :=
  match a with
  | Yield _ ev => is_final_response ev
  | _ => false
  end.

(** The generators that came to their end in [l], and the runs submitted
    in [l] whose generator did not: the runs are numbered from 0, so this
    reads a log that starts with no run. *)
Definition finished (l : list action) : list nat :=
  flat_map (fun a => match a with Finish g _ => [g] | _ => [] end) l.

Definition left_open (l : list action) : list nat :=
  List.filter (fun g => negb (existsb (Nat.eqb g) (finished l)))
    (seq 0 (length (submitted l))).

(** The traces of exceptions printed. *)
Definition traces (l : list action) : list exn :=
  flat_map (fun a => match a with PrintExc e => [e] | _ => [] end) l.

(* ===================================================================== *)
(** * Lemmas: the monad and the log                                       *)
(* ===================================================================== *)

Lemma extend_nil w : extend w [] = w.
Proof. destruct w as [env l]. unfold extend; simpl. by rewrite app_nil_r. Qed.

Lemma extend_extend w l1 l2 : extend (extend w l1) l2 = extend w (l1 ++ l2).
Proof. unfold extend; simpl. by rewrite <- app_assoc. Qed.

Lemma bind_returned {A B : Type} (m : M A) (f : A -> M B) w a w' :
  m w = (Returned a, w') -> (m ≫= f) w = f a w'.
Proof. intros H. unfold mbind, M_bind. by rewrite H. Qed.

Lemma bind_raised {A B : Type} (m : M A) (f : A -> M B) w e w' :
  m w = (Raised e, w') -> (m ≫= f) w = (Raised e, w').
Proof. intros H. unfold mbind, M_bind. by rewrite H. Qed.

Lemma bind_ext {A B : Type} (m : M A) (f g : A -> M B) w :
  (forall a w', f a w' = g a w') -> (m ≫= f) w = (m ≫= g) w.
Proof. intros H. unfold mbind, M_bind. destruct (m w) as [[a|e] w']; auto. Qed.

Lemma bind_ret_tt (m : M unit) w : (m ;; mret tt) w = m w.
Proof. unfold mbind, M_bind, mret, M_ret. by destruct (m w) as [[[]|e] w']. Qed.

Lemma perform_bind {B : Type} (a : action) (k : M B) w :
  (perform a ;; k) w = k (extend w [a]).
Proof. reflexivity. Qed.

Lemma print_bind {B : Type} (line : string) (k : M B) w :
  (print line ;; k) w = k (extend w [Print line]).
Proof. reflexivity. Qed.

Lemma perform_eq (a : action) w : perform a w = (Returned tt, extend w [a]).
Proof. reflexivity. Qed.

Lemma print_eq (line : string) w : print line w = (Returned tt, extend w [Print line]).
Proof. reflexivity. Qed.

Lemma strip_prefix_app p s : Json.strip_prefix p (p +:+ s) = Some s.
Proof. induction p as [|c p IH]; simpl; [done|]. by rewrite Ascii.eqb_refl. Qed.

Lemma has_prefix_app p s : Json.has_prefix p (p +:+ s) = true.
Proof. unfold Json.has_prefix. by rewrite strip_prefix_app. Qed.

Lemma submitted_app l1 l2 : submitted (l1 ++ l2) = submitted l1 ++ submitted l2.
Proof. unfold submitted. apply flat_map_app. Qed.

Lemma submits_when_idle_app c b l1 l2 :
  submits_when_idle c b (l1 ++ l2)
  = submits_when_idle c b l1 && submits_when_idle c (busy_after c b l1) l2.
Proof.
  revert b. induction l1 as [|a r IH]; intros b; simpl; [done|].
  destruct (is_submit a); rewrite IH; [by rewrite andb_assoc | done].
Qed.

Lemma busy_after_app c b l1 l2 :
  busy_after c b (l1 ++ l2) = busy_after c (busy_after c b l1) l2.
Proof.
  revert b. induction l1 as [|a r IH]; intros b; simpl; [done|].
  destruct (is_submit a); apply IH.
Qed.

Lemma within_run_not_submit g a : within_run g a = true -> is_submit a = false.
Proof. by destruct a. Qed.

Lemma within_run_idle c g l :
  forallb (within_run g) l = true -> forall b, submits_when_idle c b l = true.
Proof.
  induction l as [|a r IH]; simpl; [done|].
  intros [Ha Hr]%andb_prop b. rewrite (within_run_not_submit _ _ Ha). by apply IH.
Qed.

Lemma within_run_busy c g l :
  forallb (within_run g) l = true ->
  forall b, busy_after c b l = b && negb (existsb c l).
Proof.
  induction l as [|a r IH]; simpl.
  - intros _ b. by rewrite andb_true_r.
  - intros [Ha Hr]%andb_prop b. rewrite (within_run_not_submit _ _ Ha), (IH Hr).
    by rewrite negb_orb, andb_assoc.
Qed.

Lemma within_run_submitted g l : forallb (within_run g) l = true -> submitted l = [].
Proof.
  induction l as [|a r IH]; simpl; [done|].
  intros [Ha Hr]%andb_prop. destruct a; try discriminate; by apply IH.
Qed.

Lemma prints_within_run g l :
  forallb is_print l = true -> forallb (within_run g) l = true.
Proof.
  induction l as [|a r IH]; simpl; [done|].
  intros [Ha Hr]%andb_prop. destruct a; try discriminate. by apply IH.
Qed.

Lemma existsb_app_l {A : Type} (p : A -> bool) l1 l2 :
  existsb p l1 = true -> existsb p (l1 ++ l2) = true.
Proof. intros H. by rewrite existsb_app, H. Qed.

Lemma existsb_app_r {A : Type} (p : A -> bool) l1 l2 :
  existsb p l2 = true -> existsb p (l1 ++ l2) = true.
Proof. intros H. by rewrite existsb_app, H, orb_true_r. Qed.

Lemma run_finished_over l : existsb run_finished l = true -> existsb run_over l = true.
Proof.
  induction l as [|a r IH]; simpl; [done|].
  intros [Ha|Hr]%orb_prop.
  - by destruct a.
  - by rewrite (IH Hr), orb_true_r.
Qed.

(* ===================================================================== *)
(** * Lemmas: one prompt                                                  *)
(* ===================================================================== *)

Section Rounds.
Context {R : Runtime}.

Lemma handle_event_spec ev f w :
  exists lines o,
    handle_event ev f w = (o, extend w lines)
    /\ forallb is_print lines = true
    /\ (forall e, o = Raised e -> is_Exception e = true).
Proof.
  unfold handle_event.
  destruct (get_function_calls ev) as [|call ?].
  2: { eexists [_], _. split; [reflexivity|]. split; [reflexivity|]. intros e; discriminate. }
  destruct (get_function_responses ev) as [|response ?].
  2: { eexists [_], _. split; [reflexivity|]. split; [reflexivity|]. intros e; discriminate. }
  destruct (is_final_response ev), (content ev) as [c|];
    try destruct (parts c) as [|part ?]; try destruct (text part) as [t|];
    eexists [], _; rewrite extend_nil;
    (split; [reflexivity|]); (split; [reflexivity|]);
    intros e [= <-] || intros e; try discriminate; reflexivity.
Qed.

Lemma async_for_spec gen evs err : forall f w,
  exists mid o,
    async_for gen evs err f w = (o, extend w mid)
    /\ forallb (within_run gen) mid = true
    /\ match o with
       | Returned _ => existsb run_finished mid = true
       | Raised e => is_Exception e = true \/ err = Some e
       end.
Proof.
  induction evs as [|ev rest IH]; intros f w; simpl.
  - exists [Finish gen err]. destruct err as [e|].
    + exists (Raised e). split; [reflexivity|]. simpl. rewrite Nat.eqb_refl. auto.
    + exists (Returned f). split; [reflexivity|]. simpl. by rewrite Nat.eqb_refl.
  - rewrite perform_bind.
    destruct (handle_event_spec ev f (extend w [Yield gen ev])) as (lines & o & Heq & Hl & He).
    destruct o as [f'|e].
    + rewrite (bind_returned _ _ _ _ _ Heq).
      destruct (IH f' (extend (extend w [Yield gen ev]) lines)) as (mid & o & Hm & Hw & Ho).
      exists (Yield gen ev :: lines ++ mid), o.
      rewrite Hm, !extend_extend. split; [reflexivity|]. split.
      * simpl. rewrite Nat.eqb_refl, forallb_app, Hw, (prints_within_run _ _ Hl). done.
      * destruct o; [|done]. simpl. by apply existsb_app_r.
    + rewrite (bind_raised _ _ _ _ _ Heq).
      exists (Yield gen ev :: lines), (Raised e).
      rewrite extend_extend. split; [reflexivity|]. split.
      * simpl. by rewrite Nat.eqb_refl, (prints_within_run _ _ Hl).
      * left. by apply He.
Qed.

Lemma agent_run_spec query runner w :
  exists mid o,
    agent_run query runner w
    = (o, extend w (RunAsync USER_ID SESSION_ID (user_content query) :: mid))
    /\ forallb (within_run (length (submitted (log w)))) mid = true
    /\ match o with
       | Returned _ => existsb run_finished mid = true /\ existsb is_report mid = true
       | Raised e =>
           is_Exception e = true
           \/ run_error (run_async runner (log w) USER_ID SESSION_ID (user_content query))
              = Some e
       end.
Proof.
  unfold agent_run.
  set (run := run_async runner (log w) USER_ID SESSION_ID (user_content query)).
  set (w1 := extend w [RunAsync USER_ID SESSION_ID (user_content query)]).
  destruct (async_for_spec (length (submitted (log w))) (run_events run) (run_error run)
              "Agent did not provide a final text response." w1)
    as (mid & o & Hm & Hw & Ho).
  assert (Hstep : forall k : string -> M unit,
             ((before ← history;
               perform (RunAsync USER_ID SESSION_ID (user_content query)) ;;
               (final ← async_for (length (submitted before))
                          (run_events (run_async runner before USER_ID SESSION_ID
                                         (user_content query)))
                          (run_error (run_async runner before USER_ID SESSION_ID
                                        (user_content query)))
                          "Agent did not provide a final text response.";
                k final)) : M unit) w
             = (async_for (length (submitted (log w))) (run_events run) (run_error run)
                  "Agent did not provide a final text response." ≫= k) w1)
    by reflexivity.
  rewrite Hstep. clear Hstep.
  destruct o as [final|e].
  - rewrite (bind_returned _ _ _ _ _ Hm).
    exists (mid ++ [Print ("🤖 Agent Final Response: " +:+ final)]), (Returned tt).
    rewrite print_eq. unfold w1. rewrite !extend_extend. split; [reflexivity|]. split.
    + rewrite forallb_app, Hw. done.
    + split; [by apply existsb_app_l|]. apply existsb_app_r.
      cbn [existsb]. unfold is_report. by rewrite has_prefix_app.
  - rewrite (bind_raised _ _ _ _ _ Hm).
    exists mid, (Raised e). unfold w1. rewrite extend_extend. done.
Qed.

Lemma call_spec query runner w :
  exists rest o,
    call_combined_agent_async query runner w = (o, extend w (round_log query rest))
    /\ forallb (within_run (length (submitted (log w)))) rest = true
    /\ match o with
       | Returned _ => existsb run_over rest = true /\ existsb is_report rest = true
       | Raised e =>
           is_Exception e = false
           /\ exists before,
               run_error (run_async runner before USER_ID SESSION_ID (user_content query))
               = Some e
       end.
Proof.
  unfold call_combined_agent_async. rewrite !print_bind, extend_extend.
  set (w1 := extend w _).
  destruct (agent_run_spec query runner w1) as (mid & o & Hm & Hw & Ho).
  assert (Hgen : length (submitted (log w1)) = length (submitted (log w))).
  { unfold w1, extend; simpl. rewrite submitted_app. simpl. by rewrite app_nil_r. }
  rewrite Hgen in Hw.
  unfold mbind at 1, M_bind at 1, try_except. rewrite Hm.
  destruct o as [[]|e].
  - exists (mid ++ [Print rule]), (Returned tt).
    rewrite print_eq. unfold w1, round_log, query_header. rewrite !extend_extend.
    split; [by rewrite <- !app_assoc|]. split; [by rewrite forallb_app, Hw|].
    destruct Ho as [Hf Hr]. split; [apply existsb_app_l; by apply run_finished_over|].
    by apply existsb_app_l.
  - destruct (is_Exception e) eqn:He.
    + exists (mid ++ [Print ("❌ Error during agent run: " +:+ exn_str e); PrintExc e; Print rule]),
        (Returned tt).
      unfold report_error. rewrite print_bind, perform_eq. cbv beta iota. rewrite print_eq.
      unfold w1, round_log, query_header. rewrite !extend_extend.
      split; [by rewrite <- !app_assoc|]. split; [by rewrite forallb_app, Hw|].
      split; apply existsb_app_r; cbn [existsb]; [by rewrite orb_true_r|].
      unfold is_report. by rewrite (has_prefix_app "❌ Error during agent run: "), orb_true_r.
    + exists mid, (Raised e). unfold w1, round_log, query_header. rewrite extend_extend.
      split; [by rewrite <- !app_assoc|]. split; [done|]. split; [done|].
      destruct Ho as [Ho|Ho]; [congruence|]. eauto.
Qed.

End Rounds.

(* ===================================================================== *)
(** * Lemmas: the demo                                                    *)
(* ===================================================================== *)

Section Demo.
Context {R : Runtime}.

Lemma round_idle c g query rest :
  forallb (within_run g) rest = true ->
  submits_when_idle c false (round_log query rest) = true.
Proof.
  intros H. unfold round_log, query_header.
  cbn [app submits_when_idle is_submit andb negb]. by apply (within_run_idle c g).
Qed.

Lemma round_busy c g query rest :
  forallb (within_run g) rest = true ->
  existsb c rest = true ->
  busy_after c false (round_log query rest) = false.
Proof.
  intros H Hc. unfold round_log, query_header.
  cbn [app busy_after is_submit andb negb]. by rewrite (within_run_busy c g), Hc.
Qed.

Lemma round_submitted g query rest :
  forallb (within_run g) rest = true ->
  submitted (round_log query rest) = [user_content query].
Proof.
  intros H. unfold round_log, query_header.
  cbn [app submitted flat_map]. by rewrite (within_run_submitted g).
Qed.

Lemma log_extend w l : log (extend w l) = log w ++ l.
Proof. reflexivity. Qed.

(** A list of steps, whatever the runner does. *)
Lemma run_steps_spec (c : action -> bool)
    (Hc : forall l, existsb run_over l = true -> existsb is_report l = true ->
                    existsb c l = true)
    (runner : Runner) (steps : list step) : forall w,
  exists new o,
    run_steps runner steps w = (o, extend w new)
    /\ submits_when_idle c false new = true
    /\ (exists k, submitted new = map user_content (take k (queries steps)))
    /\ match o with
       | Returned _ =>
           busy_after c false new = false
           /\ submitted new = map user_content (queries steps)
       | Raised e => is_Exception e = false /\ ~ generic_only R
       end.
Proof.
  induction steps as [|[line|query] r IH]; intros w; cbn [run_steps].
  - exists [], (Returned tt). rewrite extend_nil.
    split; [done|]. split; [done|]. split; [by exists 0|]. done.
  - rewrite print_bind.
    destruct (IH (extend w [Print line])) as (new & o & Heq & Hidle & [k Hk] & Ho).
    exists (Print line :: new), o. rewrite Heq, extend_extend.
    split; [done|]. split; [done|]. split; [by exists k|]. done.
  - destruct (call_spec query runner w) as (rest & o1 & Heq1 & Hw & Ho1).
    pose proof (round_submitted _ query rest Hw) as Hsub.
    destruct o1 as [[]|e].
    + rewrite (bind_returned _ _ _ _ _ Heq1).
      destruct (IH (extend w (round_log query rest)))
        as (new & o & Heq & Hidle & [k Hk] & Ho).
      destruct Ho1 as [Hover Hreport].
      pose proof (round_busy c _ query rest Hw (Hc _ Hover Hreport)) as Hbusy.
      exists (round_log query rest ++ new), o. rewrite Heq, extend_extend.
      split; [done|]. split.
      { by rewrite submits_when_idle_app, (round_idle c _ query rest Hw), Hbusy. }
      split.
      { exists (S k). by rewrite submitted_app, Hsub, Hk. }
      destruct o as [[]|e]; [|done].
      destruct Ho as [Hb Hs]. split.
      * by rewrite busy_after_app, Hbusy.
      * by rewrite submitted_app, Hsub, Hs.
    + rewrite (bind_raised _ _ _ _ _ Heq1).
      exists (round_log query rest), (Raised e).
      split; [done|]. split; [by apply (round_idle c _ query rest Hw)|].
      split; [by exists 1|].
      destruct Ho1 as [He [before Hb]]. split; [done|].
      intros Hgen. specialize (Hgen _ _ _ _ _ _ Hb). congruence.
Qed.

Lemma setup_spec w :
  setup_session_and_runner w
  = (Returned {| agent := root_agent; app_name := APP_NAME |}, extend w setup_log).
Proof.
  unfold setup_session_and_runner. rewrite perform_bind. cbv zeta.
  rewrite !perform_bind. unfold mret, M_ret. by rewrite !extend_extend.
Qed.

(** The function is its nine statements, one after the other. *)
Lemma run_combined_example_steps w :
  run_combined_example w
  = (runner ← setup_session_and_runner; run_steps runner demo_steps) w.
Proof.
  unfold run_combined_example. apply bind_ext. intros runner w1.
  unfold demo_steps. cbn [run_steps].
  do 8 (apply bind_ext; intros ? ?). symmetry. apply bind_ret_tt.
Qed.

Lemma demo_spec (c : action -> bool)
    (Hc : forall l, existsb run_over l = true -> existsb is_report l = true ->
                    existsb c l = true) w :
  exists new o,
    run_combined_example w = (o, extend w new)
    /\ submits_when_idle c false new = true
    /\ (exists k, submitted new = map user_content (take k demo_prompts))
    /\ match o with
       | Returned _ =>
           busy_after c false new = false
           /\ submitted new = map user_content demo_prompts
       | Raised e => is_Exception e = false /\ ~ generic_only R
       end.
Proof.
  rewrite run_combined_example_steps, (bind_returned _ _ _ _ _ (setup_spec w)).
  destruct (run_steps_spec c Hc {| agent := root_agent; app_name := APP_NAME |} demo_steps
              (extend w setup_log)) as (new & o & Heq & Hidle & Hk & Ho).
  exists (setup_log ++ new), o. rewrite Heq, extend_extend.
  assert (Hs : submitted setup_log = []) by reflexivity.
  split; [done|]. split.
  { rewrite submits_when_idle_app. unfold setup_log at 1 2.
    cbn [submits_when_idle busy_after is_submit andb negb]. done. }
  split; [by rewrite submitted_app, Hs|].
  destruct o as [[]|e]; [|done]. destruct Ho as [Hb Hsub]. split.
  - rewrite busy_after_app. unfold setup_log at 1.
    cbn [busy_after is_submit andb negb]. done.
  - by rewrite submitted_app, Hs.
Qed.

Lemma demo_returns w :
  generic_only R -> exists w', run_combined_example w = (Returned tt, w').
Proof.
  intros Hgen. destruct (demo_spec run_over (fun _ H _ => H) w) as (new & o & Heq & _ & _ & Ho).
  destruct o as [[]|e]; [eauto|]. by destruct Ho as [_ []].
Qed.

(** ** The start of the script *)

Lemma credential_missing env :
  load_dotenv env !! "GOOGLE_API_KEY" = None
  \/ load_dotenv env !! "GOOGLE_API_KEY" = Some "" ->
  credential (start env) = (Raised missing_key, {| environ := load_dotenv env; log := [] |}).
Proof.
  intros H. unfold credential, mbind, M_bind, dotenv, getenv, start. cbn [environ log].
  by destruct H as [-> | ->].
Qed.

Lemma credential_present env key :
  load_dotenv env !! "GOOGLE_API_KEY" = Some key -> key <> "" ->
  credential (start env)
  = (Returned key,
     {| environ := <["GOOGLE_API_KEY" := key]> (load_dotenv env);
        log := [Setenv "GOOGLE_API_KEY" key] |}).
Proof.
  intros H Hne. unfold credential, mbind, M_bind, dotenv, getenv, start. cbn [environ log].
  rewrite H. by destruct key.
Qed.

Lemma module_body_missing env :
  load_dotenv env !! "GOOGLE_API_KEY" = None
  \/ load_dotenv env !! "GOOGLE_API_KEY" = Some "" ->
  module_body (start env) = (Raised missing_key, {| environ := load_dotenv env; log := [] |}).
Proof.
  intros H. unfold module_body. apply bind_raised. by apply credential_missing.
Qed.

Lemma module_body_present env key :
  load_dotenv env !! "GOOGLE_API_KEY" = Some key -> key <> "" ->
  module_body (start env)
  = (Returned tt,
     {| environ := <["GOOGLE_API_KEY" := key]> (load_dotenv env);
        log := [Setenv "GOOGLE_API_KEY" key;
                Construct (ObjToolset users_toolset);
                Construct (ObjToolset filesystem_toolset);
                Construct (ObjAgent root_agent)] |}).
Proof.
  intros H Hne. unfold module_body.
  by rewrite (bind_returned _ _ _ _ _ (credential_present env key H Hne)).
Qed.

Lemma RuntimeError_is_Exception e : is_RuntimeError e = true -> is_Exception e = true.
Proof. unfold is_RuntimeError, is_Exception. by destruct (exn_class_of e). Qed.

(** Whatever leaves [main] is no [Exception]. *)
Lemma main_spec w :
  exists o w', main w = (o, w') /\ forall e, o = Raised e -> is_Exception e = false.
Proof.
  unfold main. rewrite print_bind. set (w1 := extend w _).
  unfold mbind, M_bind, try_except, asyncio_run.
  destruct loop_running.
  - unfold raise. cbn [is_RuntimeError exn_class_of exn_str].
    replace (contains _ _) with true by (vm_compute; reflexivity).
    rewrite print_eq, print_eq. eexists _, _. split; [reflexivity|]. discriminate.
  - destruct (demo_spec run_over (fun _ H _ => H) w1) as (new & o & Heq & _ & _ & Ho).
    rewrite Heq. destruct o as [[]|e].
    + rewrite print_eq. eexists _, _. split; [reflexivity|]. discriminate.
    + destruct Ho as [He _].
      destruct (is_RuntimeError e) eqn:Hr.
      { apply RuntimeError_is_Exception in Hr. congruence. }
      eexists _, _. split; [reflexivity|]. by intros e' [= <-].
Qed.

End Demo.

(* ===================================================================== *)
(** * The embedded document                                               *)
(* ===================================================================== *)

(** The parser refuses what is not JSON, and the rules refuse documents
    that break them. *)
Example loads_refuses_trailing_comma : Json.loads (requote "{'a': [1, 2,]}") = None.
Proof. vm_compute. reflexivity. Qed.

Example loads_reads_nested_values :
  Json.loads (requote " {'a': [1, -2, true, null, 'x'], 'b': {}} ")
  = Some (Json.JObject
            [("a", Json.JArray [Json.JInt 1; Json.JInt (-2); Json.JBool true; Json.JNull;
                                Json.JString "x"]);
             ("b", Json.JObject [])]).
Proof. vm_compute. reflexivity. Qed.

Example operation_without_responses_is_refused :
  option_map OpenAPI.well_formed
    (Json.loads (requote
       "{'openapi': '3.0.3', 'info': {'title': 't', 'version': '1'},
         'paths': {'/a': {'get': {'summary': 's'}}}}"))
  = Some false.
Proof. vm_compute. reflexivity. Qed.

Example undeclared_path_parameter_is_refused :
  option_map OpenAPI.well_formed
    (Json.loads (requote
       "{'openapi': '3.0.3', 'info': {'title': 't', 'version': '1'},
         'paths': {'/a/{id}': {'get': {'responses': {'200': {'description': 'ok'}}}}}}"))
  = Some false.
Proof. vm_compute. reflexivity. Qed.

Example small_document_is_valid :
  option_map OpenAPI.valid
    (Json.loads (requote
       "{'openapi': '3.0.3', 'info': {'title': 't', 'version': '1'},
         'paths': {'/a': {'get': {'responses': {'200': {'description': 'ok'}}}}}}"))
  = Some true.
Proof. vm_compute. reflexivity. Qed.

Example dangling_reference_is_refused :
  option_map OpenAPI.refs_resolve
    (Json.loads (requote
       "{'openapi': '3.0.3', 'info': {'title': 't', 'version': '1'},
         'paths': {'/a': {'get': {'responses': {'200': {'description': 'ok',
           'content': {'application/json': {'schema':
             {'$ref': '#/components/schemas/Missing'}}}}}}}}}"))
  = Some false.
Proof. vm_compute. reflexivity. Qed.

Lemma strip_prefix_sound p : forall s t, Json.strip_prefix p s = Some t -> s = p +:+ t.
Proof.
  induction p as [|a p IH]; intros s t H; simpl in *.
  - by injection H as ->.
  - destruct s as [|b s]; [discriminate|].
    destruct (Ascii.eqb a b) eqn:Hab; [|discriminate].
    apply Ascii.eqb_eq in Hab as ->. by rewrite (IH _ _ H).
Qed.

Lemma assoc_last_key k m v : Json.assoc_last k m = Some v -> In k (map fst m).
Proof.
  revert v. induction m as [|[k' v'] m IH]; intros v; [discriminate|].
  cbn [Json.assoc_last map fst In].
  destruct (Json.assoc_last k m) as [w|]; [intros _; right; by apply (IH w)|].
  destruct (String.eqb k k') eqn:Hk; [|discriminate].
  intros _. left. symmetry. by apply String.eqb_eq.
Qed.

(** A reference that resolves names a member of components/schemas. *)
Lemma resolve_sound doc r :
  bool_decide (is_Some (OpenAPI.resolve doc r)) = true ->
  exists name schema,
    r = Json.JString (OpenAPI.schema_prefix +:+ name)
    /\ In name (Json.obj_keys
                  (default Json.JNull (Json.at_path ["components"; "schemas"] doc)))
    /\ Json.at_path ["components"; "schemas"; name] doc = Some schema.
Proof.
  intros Hr. apply bool_decide_eq_true in Hr. destruct Hr as [schema Hs].
  unfold OpenAPI.resolve in Hs. destruct r as [| | | |s| |]; try discriminate.
  destruct (Json.strip_prefix OpenAPI.schema_prefix s) as [name|] eqn:Hp; [|discriminate].
  exists name, schema. split; [|split; [|exact Hs]].
  - f_equal. by apply strip_prefix_sound.
  - cbn [Json.at_path] in Hs |- *.
    destruct (Json.obj_get "components" doc) as [c|]; [|discriminate].
    destruct (Json.obj_get "schemas" c) as [ss|]; [|discriminate].
    cbn [default]. destruct (Json.obj_get name ss) as [v|] eqn:Hv; [|discriminate].
    destruct ss as [| | | | | |m]; try discriminate.
    unfold Json.obj_keys. cbn [Json.obj_members Json.obj_get] in *.
    by apply (assoc_last_key _ _ v).
Qed.


(** C5. Every [$ref] of the embedded document, wherever it stands, is the
    string [#/components/schemas/NAME] for a NAME defined under
    components/schemas (and the document holds such references: 27). *)
Theorem every_ref_resolves :
  Json.loads openapi_spec_string = Some openapi_document
  /\ length (OpenAPI.refs_of openapi_document) = 27
  /\ Forall (fun r =>
               exists name schema,
                 r = Json.JString (OpenAPI.schema_prefix +:+ name)
                 /\ In name (Json.obj_keys
                               (default Json.JNull
                                  (Json.at_path ["components"; "schemas"] openapi_document)))
                 /\ Json.at_path ["components"; "schemas"; name] openapi_document
                    = Some schema)
       (OpenAPI.refs_of openapi_document).
Proof.
  split; [vm_compute; reflexivity|]. split; [vm_compute; reflexivity|].
  apply Forall_forall. intros r Hr. apply resolve_sound.
  assert (Hall : OpenAPI.refs_resolve openapi_document = true) by (vm_compute; reflexivity).
  unfold OpenAPI.refs_resolve in Hall. rewrite forallb_forall in Hall.
  apply Hall. apply list_elem_of_In. exact Hr.
Qed.

(** C6. The paths of the embedded document are [/users], [/users/{id}],
    [/unknown], [/unknown/{id}], [/register], [/login] and
    [/users/{delay}], each once and no other, and its servers are one
    server, with the URL [https://reqres.in/api]. *)
Theorem paths_and_server_of_document :
  Json.loads openapi_spec_string = Some openapi_document
  /\ OpenAPI.path_names openapi_document
     = ["/users"; "/users/{id}"; "/unknown"; "/unknown/{id}"; "/register"; "/login";
        "/users/{delay}"]
  /\ OpenAPI.server_urls openapi_document = [Some "https://reqres.in/api"].
Proof.
  split; [vm_compute; reflexivity|]. split; vm_compute; reflexivity.
Qed.

(* ===================================================================== *)
(** * The credential check and the agent                                  *)
(* ===================================================================== *)

(** C10. Whether GOOGLE_API_KEY is absent or set to the empty string when
    the script reads it, the script ends with the same ValueError, and
    nothing has been built, submitted or printed by then. *)
Theorem absent_or_empty_credential_raises (R : Runtime) (env : gmap string string) :
  load_dotenv env !! "GOOGLE_API_KEY" = None
  \/ load_dotenv env !! "GOOGLE_API_KEY" = Some "" ->
  script (start env) = (Raised missing_key, {| environ := load_dotenv env; log := [] |}).
Proof.
  intros H. unfold script. apply bind_raised. by apply module_body_missing.
Qed.

Lemma absent_or_empty_credential_raises_witness :
  @script quiet_runtime (start (env_with_key ""))
  = (Raised missing_key, {| environ := env_with_key ""; log := [] |}).
Proof.
  apply (absent_or_empty_credential_raises quiet_runtime (env_with_key "")).
  right. vm_compute. reflexivity.
Defined.

(** C2, as the code has it.  With GOOGLE_API_KEY unset the script ends with
    the ValueError before anything is built, submitted or printed; with
    the variable set to a string that is not empty, the module body runs to
    its end and the script never ends with that error. *)
Theorem credential_checked_at_startup (R : Runtime) (env : gmap string string) :
  (load_dotenv env !! "GOOGLE_API_KEY" = None ->
   script (start env) = (Raised missing_key, {| environ := load_dotenv env; log := [] |}))
  /\ (forall key,
        load_dotenv env !! "GOOGLE_API_KEY" = Some key -> key <> "" ->
        fst (module_body (start env)) = Returned tt
        /\ fst (script (start env)) <> Raised missing_key).
Proof.
  split.
  - intros H. unfold script. apply bind_raised. apply module_body_missing. by left.
  - intros key H Hne. pose proof (module_body_present env key H Hne) as Hm.
    split; [by rewrite Hm|].
    unfold script. rewrite (bind_returned _ _ _ _ _ Hm).
    match goal with |- context [main ?w] => destruct (main_spec w) as (o & w' & -> & Ho) end.
    cbn [fst]. intros ->. by specialize (Ho _ eq_refl).
Qed.

Lemma credential_checked_at_startup_witness :
  @script quiet_runtime (start ∅) = (Raised missing_key, {| environ := ∅; log := [] |})
  /\ fst (@module_body quiet_runtime (start (env_with_key "secret"))) = Returned tt
  /\ fst (@script quiet_runtime (start (env_with_key "secret"))) <> Raised missing_key.
Proof.
  split.
  - apply (credential_checked_at_startup quiet_runtime ∅). vm_compute. reflexivity.
  - apply (credential_checked_at_startup quiet_runtime (env_with_key "secret")) with "secret".
    + vm_compute. reflexivity.
    + discriminate.
Defined.

(** C2, as stated, fails where the variable is set to the empty string:
    it is set, and the script ends with the ValueError. *)
Lemma empty_credential_is_set_and_raises :
  @load_dotenv quiet_runtime (env_with_key "") !! "GOOGLE_API_KEY" = Some ""
  /\ fst (@script quiet_runtime (start (env_with_key ""))) = Raised missing_key.
Proof. split; vm_compute; reflexivity. Qed.

(** C9. Once the credential is there, the module body builds the OpenAPI
    toolset from the embedded document, the MCP filesystem toolset and the
    agent, in that order, and the tools of the agent are these two
    toolsets, in that order, and nothing else. *)
Theorem agent_has_two_toolsets (R : Runtime) (env : gmap string string) (key : string) :
  load_dotenv env !! "GOOGLE_API_KEY" = Some key -> key <> "" ->
  exists w',
    module_body (start env) = (Returned tt, w')
    /\ constructed (log w')
       = [ObjToolset users_toolset; ObjToolset filesystem_toolset; ObjAgent root_agent]
    /\ tools root_agent
       = [OpenAPIToolset openapi_spec_string "json";
          MCPToolset
            {| server_params :=
                 {| command := "npx";
                    args := ["-y"; "@modelcontextprotocol/server-filesystem";
                             path_abspath TARGET_FOLDER_PATH] |} |}]
    /\ length (tools root_agent) = 2.
Proof.
  intros H Hne. eexists. split; [by apply (module_body_present env key)|].
  split; [reflexivity|]. split; reflexivity.
Qed.

Lemma agent_has_two_toolsets_witness :
  exists w',
    @module_body quiet_runtime (start (env_with_key "secret")) = (Returned tt, w')
    /\ constructed (log w')
       = [ObjToolset users_toolset; ObjToolset (@filesystem_toolset quiet_runtime);
          ObjAgent (@root_agent quiet_runtime)]
    /\ tools (@root_agent quiet_runtime)
       = [OpenAPIToolset openapi_spec_string "json";
          MCPToolset
            {| server_params :=
                 {| command := "npx";
                    args := ["-y"; "@modelcontextprotocol/server-filesystem";
                             "/home/cetec/AIProjects/adk_openapi/adk_test"] |} |}]
    /\ length (tools (@root_agent quiet_runtime)) = 2.
Proof.
  apply (agent_has_two_toolsets quiet_runtime (env_with_key "secret") "secret").
  - vm_compute. reflexivity.
  - discriminate.
Defined.

(* ===================================================================== *)
(** * The demo                                                            *)
(* ===================================================================== *)

(** C7. Whatever the query and whatever the runner does with it,
    [call_combined_agent_async] gives the runner one message: the user
    content whose one part holds the query itself. *)
Theorem query_reaches_runner_unmodified
    (R : Runtime) (query : string) (runner : Runner) (w : world) :
  exists rest o,
    call_combined_agent_async query runner w
    = (o, extend w
            (query_header query
             ++ RunAsync USER_ID SESSION_ID
                  {| role := "user"; parts := [{| text := Some query |}] |} :: rest))
    /\ submitted rest = []
    /\ submitted_texts
         (query_header query
          ++ RunAsync USER_ID SESSION_ID
               {| role := "user"; parts := [{| text := Some query |}] |} :: rest)
       = [Some query].
Proof.
  destruct (call_spec query runner w) as (rest & o & Heq & Hw & _).
  exists rest, o. split; [exact Heq|].
  pose proof (within_run_submitted _ _ Hw) as Hs. split; [exact Hs|].
  unfold submitted_texts, query_header. cbn [app submitted flat_map].
  fold (submitted rest). by rewrite Hs.
Qed.

(* ===================================================================== *)
(** * Lemmas: the loop and the call, written out                          *)
(* ===================================================================== *)

Lemma delivered_app l1 l2 : delivered (l1 ++ l2) = delivered l1 ++ delivered l2.
Proof. apply flat_map_app. Qed.

Lemma reports_app l1 l2 : reports (l1 ++ l2) = reports l1 ++ reports l2.
Proof. unfold reports. apply List.filter_app. Qed.

Lemma sessions_created_app l1 l2 :
  sessions_created (l1 ++ l2) = sessions_created l1 ++ sessions_created l2.
Proof. apply flat_map_app. Qed.

Lemma constructed_app l1 l2 : constructed (l1 ++ l2) = constructed l1 ++ constructed l2.
Proof. apply flat_map_app. Qed.

Lemma submission_keys_app l1 l2 :
  submission_keys (l1 ++ l2) = submission_keys l1 ++ submission_keys l2.
Proof. apply flat_map_app. Qed.

Lemma within_run_census g l :
  forallb (within_run g) l = true ->
  sessions_created l = [] /\ constructed l = [] /\ submission_keys l = [].
Proof.
  induction l as [|a r IH]; [done|]. cbn [forallb].
  intros [Ha Hr]%andb_prop. destruct (IH Hr) as (Hs & Hc & Hk).
  destruct a; try discriminate; done.
Qed.

Lemma last_default_cons (t d : string) (l : list string) :
  List.last (t :: l) d = List.last l t.
Proof.
  revert t d. induction l as [|x l IH]; intros t d; [done|].
  change (List.last (t :: x :: l) d) with (List.last (x :: l) d).
  by rewrite (IH x d), (IH x t).
Qed.

Lemma no_report_no_final_line l : reports l = [] -> existsb is_final_line l = false.
Proof.
  induction l as [|a r IH]; [done|]. unfold reports. cbn [List.filter existsb].
  destruct (is_report a) eqn:Ha; [discriminate|]. intros Hr.
  rewrite (IH Hr), orb_false_r. destruct a; try done.
  unfold is_report in Ha. unfold is_final_line.
  by apply orb_false_elim in Ha as [-> _].
Qed.

Lemma event_lines_prints ev : forallb is_print (event_lines ev) = true.
Proof.
  unfold event_lines. destruct (get_function_calls ev); [|done].
  by destruct (get_function_responses ev).
Qed.

Lemma event_lines_reports ev : reports (event_lines ev) = [].
Proof.
  unfold event_lines. destruct (get_function_calls ev); [|reflexivity].
  destruct (get_function_responses ev); reflexivity.
Qed.

Lemma event_lines_delivered ev : delivered (event_lines ev) = [].
Proof.
  unfold event_lines. destruct (get_function_calls ev); [|done].
  by destruct (get_function_responses ev).
Qed.

Section Traces.
Context {R : Runtime}.

Lemma handle_event_exact ev f w :
  handle_event ev f w
  = (match read_event ev with
     | Keeps => Returned f
     | Sets t => Returned t
     | Fails => Raised no_strip
     end, extend w (event_lines ev)).
Proof.
  unfold handle_event, read_event, event_lines.
  destruct (get_function_calls ev) as [|call ?]; [|reflexivity].
  destruct (get_function_responses ev) as [|response ?]; [|reflexivity].
  destruct (is_final_response ev); [|by rewrite extend_nil].
  destruct (content ev) as [c|]; [|by rewrite extend_nil].
  destruct (parts c) as [|part ?]; [by rewrite extend_nil|].
  destruct (text part); by rewrite extend_nil.
Qed.

Lemma async_for_exact gen evs err : forall f w,
  async_for gen evs err f w
  = (snd (loop_trace gen evs err f), extend w (fst (loop_trace gen evs err f))).
Proof.
  induction evs as [|ev rest IH]; intros f w; cbn [async_for loop_trace].
  - by destruct err.
  - rewrite perform_bind. unfold mbind, M_bind. rewrite handle_event_exact.
    destruct (read_event ev) as [|t|].
    + rewrite IH. destruct (loop_trace gen rest err f) as [l o]. cbn [fst snd].
      by rewrite !extend_extend.
    + rewrite IH. destruct (loop_trace gen rest err t) as [l o]. cbn [fst snd].
      by rewrite !extend_extend.
    + cbn [fst snd]. by rewrite extend_extend.
Qed.

Lemma agent_run_exact query runner w :
  agent_run query runner w
  = match loop_trace (length (submitted (log w)))
            (run_events (run_async runner (log w) USER_ID SESSION_ID (user_content query)))
            (run_error (run_async runner (log w) USER_ID SESSION_ID (user_content query)))
            default_final_text with
    | (mid, Returned t) =>
        (Returned tt,
         extend w (RunAsync USER_ID SESSION_ID (user_content query)
                   :: mid ++ [Print ("🤖 Agent Final Response: " +:+ t)]))
    | (mid, Raised e) =>
        (Raised e, extend w (RunAsync USER_ID SESSION_ID (user_content query) :: mid))
    end.
Proof.
  set (run := run_async runner (log w) USER_ID SESSION_ID (user_content query)).
  assert (Hstep :
    agent_run query runner w
    = (async_for (length (submitted (log w))) (run_events run) (run_error run)
         default_final_text
       ≫= fun t => print ("🤖 Agent Final Response: " +:+ t))
        (extend w [RunAsync USER_ID SESSION_ID (user_content query)])) by reflexivity.
  rewrite Hstep. unfold mbind, M_bind. rewrite async_for_exact.
  destruct (loop_trace _ _ _ _) as [mid [t|e]]; cbn [fst snd].
  - by rewrite print_eq, !extend_extend.
  - by rewrite extend_extend.
Qed.

Lemma call_exact query runner w :
  call_combined_agent_async query runner w
  = (snd (call_trace runner (log w) query),
     extend w (fst (call_trace runner (log w) query))).
Proof.
  unfold call_combined_agent_async. rewrite !print_bind, extend_extend. cbn [app].
  unfold mbind at 1, M_bind at 1, try_except.
  change [Print (newline +:+ "--- Combined Agent Query ---"); Print ("Query: " +:+ query)]
    with (query_header query).
  rewrite agent_run_exact, log_extend.
  replace (length (submitted (log w ++ query_header query)))
    with (length (submitted (log w)))
    by (rewrite submitted_app; cbn [query_header submitted flat_map app];
        by rewrite app_nil_r).
  unfold call_trace, run_of.
  destruct (loop_trace _ _ _ _) as [mid [t|e]].
  - rewrite print_eq, !extend_extend. cbn [fst snd]. unfold round_log.
    cbn [app]. by rewrite <- ?app_assoc.
  - destruct (is_Exception e).
    + unfold report_error. rewrite print_bind, perform_eq. cbv beta iota.
      rewrite print_eq, !extend_extend. cbn [fst snd]. unfold round_log.
      cbn [app]. by rewrite <- ?app_assoc.
    + rewrite extend_extend. by cbn [fst snd].
Qed.

(** ** What the written-out loop holds *)

Lemma loop_trace_within gen evs err : forall f,
  forallb (within_run gen) (fst (loop_trace gen evs err f)) = true.
Proof.
  induction evs as [|ev rest IH]; intros f; cbn [loop_trace].
  - cbn. by rewrite Nat.eqb_refl.
  - pose proof (prints_within_run gen _ (event_lines_prints ev)) as Hl.
    destruct (read_event ev) as [|t|].
    + specialize (IH f). destruct (loop_trace gen rest err f) as [l o].
      cbn [fst forallb within_run] in *. by rewrite Nat.eqb_refl, forallb_app, Hl, IH.
    + specialize (IH t). destruct (loop_trace gen rest err t) as [l o].
      cbn [fst forallb within_run] in *. by rewrite Nat.eqb_refl, forallb_app, Hl, IH.
    + cbn [fst forallb within_run]. by rewrite Nat.eqb_refl, Hl.
Qed.

Lemma loop_trace_reports gen evs err : forall f,
  reports (fst (loop_trace gen evs err f)) = [].
Proof.
  induction evs as [|ev rest IH]; intros f; cbn [loop_trace]; [done|].
  pose proof (event_lines_reports ev) as Hl.
  destruct (read_event ev) as [|t|].
  - specialize (IH f). destruct (loop_trace gen rest err f) as [l o]. cbn [fst] in *.
    change (reports (event_lines ev ++ l) = []). by rewrite reports_app, Hl, IH.
  - specialize (IH t). destruct (loop_trace gen rest err t) as [l o]. cbn [fst] in *.
    change (reports (event_lines ev ++ l) = []). by rewrite reports_app, Hl, IH.
  - cbn [fst]. exact Hl.
Qed.

(** The events delivered are the first ones of the run, in order; all of
    them when the loop ends without raising. *)
Lemma loop_trace_delivered gen evs err : forall f,
  exists skipped,
    evs = delivered (fst (loop_trace gen evs err f)) ++ skipped
    /\ (forall t, snd (loop_trace gen evs err f) = Returned t ->
                  skipped = [] /\ err = None).
Proof.
  induction evs as [|ev rest IH]; intros f; cbn [loop_trace].
  - exists []. split; [done|]. intros t. by destruct err.
  - pose proof (event_lines_delivered ev) as Hl.
    destruct (read_event ev) as [|t|].
    + destruct (IH f) as (skipped & Heq & Hret).
      destruct (loop_trace gen rest err f) as [l o]. cbn [fst snd] in *.
      exists skipped. split; [|exact Hret].
      change (ev :: rest = ev :: delivered (event_lines ev ++ l) ++ skipped).
      rewrite delivered_app, Hl. cbn [app]. by rewrite <- Heq.
    + destruct (IH t) as (skipped & Heq & Hret).
      destruct (loop_trace gen rest err t) as [l o]. cbn [fst snd] in *.
      exists skipped. split; [|exact Hret].
      change (ev :: rest = ev :: delivered (event_lines ev ++ l) ++ skipped).
      rewrite delivered_app, Hl. cbn [app]. by rewrite <- Heq.
    + exists rest. cbn [fst snd]. split; [|discriminate].
      change (ev :: rest = ev :: delivered (event_lines ev) ++ rest). by rewrite Hl.
Qed.

(** What the loop raises is the AttributeError of a part without text, or
    what the run ends with. *)
Lemma loop_trace_raised gen evs err : forall f e,
  snd (loop_trace gen evs err f) = Raised e -> e = no_strip \/ err = Some e.
Proof.
  induction evs as [|ev rest IH]; intros f e; cbn [loop_trace].
  - destruct err as [e'|]; cbn [snd]; [|discriminate]. intros [= ->]. by right.
  - destruct (read_event ev) as [|t|].
    + specialize (IH f e). by destruct (loop_trace gen rest err f).
    + specialize (IH t e). by destruct (loop_trace gen rest err t).
    + cbn [snd]. intros [= <-]. by left.
Qed.

(** A run whose events are all handled without raising is read to its
    end, and the text kept is the last one set. *)
Lemma loop_trace_clean gen evs err :
  forallb handles_cleanly evs = true ->
  forall f, exists mid,
    loop_trace gen evs err f
    = (mid ++ [Finish gen err],
       match err with
       | None => Returned (List.last (final_texts evs) f)
       | Some e => Raised e
       end)
    /\ delivered mid = evs /\ reports mid = [].
Proof.
  induction evs as [|ev rest IH]; cbn [forallb loop_trace].
  - intros _ f. by exists [].
  - intros [Hev Hrest]%andb_prop f. unfold handles_cleanly in Hev.
    unfold final_texts. cbn [flat_map]. fold (final_texts rest).
    pose proof (event_lines_delivered ev) as Hd.
    pose proof (event_lines_reports ev) as Hr.
    destruct (read_event ev) as [|t|]; [| |discriminate].
    + destruct (IH Hrest f) as (mid & -> & Hmd & Hmr).
      exists (Yield gen ev :: event_lines ev ++ mid).
      split; [cbn [app]; by rewrite <- app_assoc|]. split.
      * change (ev :: delivered (event_lines ev ++ mid) = ev :: rest).
        by rewrite delivered_app, Hd, Hmd.
      * change (reports (event_lines ev ++ mid) = []). by rewrite reports_app, Hr, Hmr.
    + destruct (IH Hrest t) as (mid & -> & Hmd & Hmr).
      exists (Yield gen ev :: event_lines ev ++ mid).
      cbn [app]. rewrite last_default_cons.
      split; [cbn [app]; by rewrite <- app_assoc|]. split.
      * change (ev :: delivered (event_lines ev ++ mid) = ev :: rest).
        by rewrite delivered_app, Hd, Hmd.
      * change (reports (event_lines ev ++ mid) = []). by rewrite reports_app, Hr, Hmr.
Qed.

(** The loop stops at the first event whose handling raises. *)
Lemma loop_trace_fails gen pre ev post err :
  forallb handles_cleanly pre = true -> handles_cleanly ev = false ->
  forall f, exists mid,
    loop_trace gen (pre ++ ev :: post) err f = (mid, Raised no_strip)
    /\ delivered mid = pre ++ [ev] /\ reports mid = [].
Proof.
  intros Hpre Hev. induction pre as [|p pre IH]; intros f; cbn [app loop_trace].
  - unfold handles_cleanly in Hev. destruct (read_event ev); try discriminate.
    exists (Yield gen ev :: event_lines ev). split; [done|]. split.
    + change (ev :: delivered (event_lines ev) = [ev]). by rewrite event_lines_delivered.
    + exact (event_lines_reports ev).
  - cbn [forallb] in Hpre. apply andb_prop in Hpre as [Hp Hpre].
    unfold handles_cleanly in Hp.
    pose proof (event_lines_delivered p) as Hd.
    pose proof (event_lines_reports p) as Hr.
    destruct (read_event p) as [|t|]; [| |discriminate].
    + destruct (IH Hpre f) as (mid & -> & Hmd & Hmr).
      exists (Yield gen p :: event_lines p ++ mid). split; [done|]. split.
      * change (p :: delivered (event_lines p ++ mid) = p :: pre ++ [ev]).
        by rewrite delivered_app, Hd, Hmd.
      * change (reports (event_lines p ++ mid) = []). by rewrite reports_app, Hr, Hmr.
    + destruct (IH Hpre t) as (mid & -> & Hmd & Hmr).
      exists (Yield gen p :: event_lines p ++ mid). split; [done|]. split.
      * change (p :: delivered (event_lines p ++ mid) = p :: pre ++ [ev]).
        by rewrite delivered_app, Hd, Hmd.
      * change (reports (event_lines p ++ mid) = []). by rewrite reports_app, Hr, Hmr.
Qed.

End Traces.

(* ===================================================================== *)
(** * Lemmas: what a call and the demo leave in the log                   *)
(* ===================================================================== *)

Section Census.
Context {R : Runtime}.

Lemma round_log_readings g query rest :
  forallb (within_run g) rest = true ->
  sessions_created (round_log query rest) = []
  /\ constructed (round_log query rest) = []
  /\ submission_keys (round_log query rest) = [(USER_ID, SESSION_ID)]
  /\ submitted (round_log query rest) = [user_content query]
  /\ reports (round_log query rest) = reports rest
  /\ delivered (round_log query rest) = delivered rest.
Proof.
  intros H. destruct (within_run_census g rest H) as (Hs & Hc & Hk).
  pose proof (within_run_submitted g rest H) as Hsub.
  change (round_log query rest)
    with (query_header query ++ [RunAsync USER_ID SESSION_ID (user_content query)] ++ rest).
  rewrite !sessions_created_app, !constructed_app, !submission_keys_app, !submitted_app,
    !reports_app, !delivered_app, Hs, Hc, Hk, Hsub.
  repeat split; reflexivity.
Qed.

(** One call: the log is a round, and the round holds one report when the
    call returns, none when it raises. *)
Lemma call_trace_shape runner before query :
  exists rest,
    fst (call_trace runner before query) = round_log query rest
    /\ forallb (within_run (length (submitted before))) rest = true
    /\ match snd (call_trace runner before query) with
       | Returned _ => length (reports rest) = 1 /\ last rest = Some (Print rule)
       | Raised e =>
           is_Exception e = false /\ reports rest = []
           /\ run_error (run_of runner before query) = Some e
       end.
Proof.
  unfold call_trace.
  set (run := run_of runner before query). set (gen := length (submitted before)).
  pose proof (loop_trace_within gen (run_events run) (run_error run) default_final_text) as Hw.
  pose proof (loop_trace_reports gen (run_events run) (run_error run) default_final_text) as Hr.
  pose proof (loop_trace_raised gen (run_events run) (run_error run) default_final_text) as He.
  destruct (loop_trace gen (run_events run) (run_error run) default_final_text)
    as [mid [t|e]]; cbn [fst snd] in *.
  - exists (mid ++ [Print ("🤖 Agent Final Response: " +:+ t); Print rule]).
    split; [done|]. split; [by rewrite forallb_app, Hw|]. split.
    + rewrite reports_app, Hr. unfold reports. cbn [List.filter app]. unfold is_report at 1.
      rewrite has_prefix_app. cbn [orb]. reflexivity.
    + by rewrite last_app.
  - destruct (is_Exception e) eqn:Hgen; cbn [fst snd].
    + exists (mid ++ [Print ("❌ Error during agent run: " +:+ exn_str e); PrintExc e;
                      Print rule]).
      split; [done|]. split; [by rewrite forallb_app, Hw|]. split.
      * rewrite reports_app, Hr. unfold reports. cbn [List.filter app]. unfold is_report at 1.
        rewrite (has_prefix_app "❌ Error during agent run: "), orb_true_r. reflexivity.
      * by rewrite last_app.
    + exists mid. split; [done|]. split; [done|]. split; [done|]. split; [done|].
      destruct (He e eq_refl) as [-> | H]; [discriminate Hgen | exact H].
Qed.

Lemma run_steps_census runner steps :
  says_no_report steps = true ->
  forall w, exists new o,
    run_steps runner steps w = (o, extend w new)
    /\ sessions_created new = []
    /\ constructed new = []
    /\ Forall (fun k => k = (USER_ID, SESSION_ID)) (submission_keys new)
    /\ match o with
       | Returned _ => length (reports new) = length (submitted new)
       | Raised _ => S (length (reports new)) = length (submitted new)
       end.
Proof.
  induction steps as [|[line|query] r IH]; cbn [says_no_report forallb run_steps].
  - intros _ w. exists [], (Returned tt). rewrite extend_nil. repeat split; constructor.
  - intros [Hline Hr]%andb_prop w. rewrite print_bind.
    destruct (IH Hr (extend w [Print line])) as (new & o & Heq & Hs & Hc & Hk & Ho).
    exists (Print line :: new), o. rewrite Heq, extend_extend.
    split; [done|]. split; [exact Hs|]. split; [exact Hc|]. split; [exact Hk|].
    unfold reports. cbn [List.filter]. apply negb_true_iff in Hline. rewrite Hline.
    exact Ho.
  - intros Hr w. cbn [andb] in Hr. unfold mbind at 1, M_bind at 1. rewrite call_exact.
    destruct (call_trace_shape runner (log w) query) as (rest & Hfst & Hw & Ho1).
    destruct (call_trace runner (log w) query) as [tr o1]. cbn [fst snd] in *. subst tr.
    destruct (round_log_readings _ query rest Hw) as (Hs1 & Hc1 & Hk1 & Hsub1 & Hr1 & _).
    destruct o1 as [[]|e].
    + destruct (IH Hr (extend w (round_log query rest)))
        as (new & o & Heq & Hs & Hc & Hk & Ho).
      exists (round_log query rest ++ new), o. rewrite Heq, extend_extend.
      split; [done|]. split; [by rewrite sessions_created_app, Hs1, Hs|].
      split; [by rewrite constructed_app, Hc1, Hc|].
      split; [rewrite submission_keys_app, Hk1; by constructor|].
      destruct Ho1 as [Hone _].
      rewrite reports_app, submitted_app, !length_app, Hr1, Hone, Hsub1.
      destruct o; cbn [length Nat.add]; by rewrite Ho.
    + exists (round_log query rest), (Raised e).
      split; [done|]. split; [exact Hs1|]. split; [exact Hc1|].
      split; [rewrite Hk1; by repeat constructor|].
      destruct Ho1 as (_ & Hnone & _). by rewrite Hr1, Hnone, Hsub1.
Qed.

Lemma demo_census w :
  exists new o,
    run_combined_example w = (o, extend w (setup_log ++ new))
    /\ sessions_created new = []
    /\ constructed new = []
    /\ Forall (fun k => k = (USER_ID, SESSION_ID)) (submission_keys new)
    /\ match o with
       | Returned _ => length (reports new) = length (submitted new)
       | Raised _ => S (length (reports new)) = length (submitted new)
       end.
Proof.
  rewrite run_combined_example_steps, (bind_returned _ _ _ _ _ (setup_spec w)).
  destruct (run_steps_census {| agent := root_agent; app_name := APP_NAME |} demo_steps
              eq_refl (extend w setup_log)) as (new & o & Heq & H).
  exists new, o. by rewrite Heq, extend_extend.
Qed.

(** ** [main] *)

Lemma main_in_loop w :
  loop_running = true ->
  main w = (Returned tt, extend w [Print start_line; Print loop_line; Print finish_line]).
Proof.
  intros H. unfold main. rewrite print_bind.
  unfold mbind, M_bind, try_except, asyncio_run. rewrite H.
  unfold raise. cbn [is_RuntimeError exn_class_of exn_str].
  replace (contains _ _) with true by (vm_compute; reflexivity).
  by rewrite !print_eq, !extend_extend.
Qed.

Lemma main_out_of_loop w :
  loop_running = false ->
  exists new o,
    main w = (o, extend w (Print start_line :: new))
    /\ match o with
       | Returned _ => last new = Some (Print finish_line)
       | Raised e => is_Exception e = false /\ ~ generic_only R
       end.
Proof.
  intros H. unfold main. rewrite print_bind. set (w1 := extend w _).
  unfold mbind, M_bind, try_except, asyncio_run. rewrite H.
  destruct (demo_spec run_over (fun _ H _ => H) w1) as (new & o & Heq & _ & _ & Ho).
  rewrite Heq. destruct o as [[]|e].
  - exists (new ++ [Print finish_line]), (Returned tt).
    rewrite print_eq. unfold w1. rewrite !extend_extend.
    split; [done|]. by rewrite last_snoc.
  - destruct Ho as [He Hgen].
    destruct (is_RuntimeError e) eqn:Hr.
    { apply RuntimeError_is_Exception in Hr. congruence. }
    exists new, (Raised e). unfold w1. rewrite extend_extend. done.
Qed.

Lemma script_missing env :
  load_dotenv env !! "GOOGLE_API_KEY" = None
  \/ load_dotenv env !! "GOOGLE_API_KEY" = Some "" ->
  script (start env) = (Raised missing_key, {| environ := load_dotenv env; log := [] |}).
Proof. intros H. unfold script. apply bind_raised. by apply module_body_missing. Qed.

(** ** An exception that is no [Exception] *)

Lemma loop_trace_interrupted gen evs err : forall f e,
  snd (loop_trace gen evs err f) = Raised e -> is_Exception e = false ->
  last (fst (loop_trace gen evs err f)) = Some (Finish gen (Some e)).
Proof.
  induction evs as [|ev rest IH]; intros f e; cbn [loop_trace].
  - destruct err as [e'|]; cbn [fst snd]; [|discriminate]. by intros [= ->] _.
  - destruct (read_event ev) as [|t|].
    + specialize (IH f e). destruct (loop_trace gen rest err f) as [l o].
      cbn [fst snd] in *. intros Ho He. by rewrite last_cons, last_app, (IH Ho He).
    + specialize (IH t e). destruct (loop_trace gen rest err t) as [l o].
      cbn [fst snd] in *. intros Ho He. by rewrite last_cons, last_app, (IH Ho He).
    + cbn [fst snd]. intros [= <-]. discriminate.
Qed.

Lemma call_trace_interrupted runner before query e :
  snd (call_trace runner before query) = Raised e ->
  is_Exception e = false
  /\ last (fst (call_trace runner before query))
     = Some (Finish (length (submitted before)) (Some e)).
Proof.
  unfold call_trace.
  pose proof (loop_trace_interrupted (length (submitted before))
                (run_events (run_of runner before query))
                (run_error (run_of runner before query)) default_final_text) as Hl.
  destruct (loop_trace _ _ _ _) as [mid [t|e']]; cbn [fst snd] in *; [discriminate|].
  destruct (is_Exception e') eqn:He; cbn [fst snd]; [discriminate|].
  intros [= ->]. split; [exact He|].
  unfold round_log. by rewrite last_app_cons, last_cons, (Hl e eq_refl He).
Qed.

Lemma run_steps_interrupted runner steps : forall w e w',
  run_steps runner steps w = (Raised e, w') ->
  is_Exception e = false
  /\ exists new gen, w' = extend w new /\ last new = Some (Finish gen (Some e)).
Proof.
  induction steps as [|[line|query] r IH]; intros w e w'; cbn [run_steps].
  - discriminate.
  - rewrite print_bind. intros H. destruct (IH _ _ _ H) as (He & new & gen & -> & Hlast).
    split; [exact He|]. exists (Print line :: new), gen. rewrite extend_extend.
    split; [done|]. by rewrite last_cons, Hlast.
  - unfold mbind at 1, M_bind at 1. rewrite call_exact.
    pose proof (call_trace_interrupted runner (log w) query) as Hcall.
    destruct (call_trace runner (log w) query) as [tr [[]|e1]]; cbn [fst snd] in *.
    + intros H. destruct (IH _ _ _ H) as (He & new & gen & -> & Hlast).
      split; [exact He|]. exists (tr ++ new), gen. rewrite extend_extend.
      split; [done|]. by rewrite last_app, Hlast.
    + intros [= -> <-]. destruct (Hcall e eq_refl) as [He Hlast].
      split; [exact He|]. by exists tr, (length (submitted (log w))).
Qed.

End Census.

(* ===================================================================== *)
(** * Lemmas: the demo, round by round                                    *)
(* ===================================================================== *)

Lemma extend_inj w l1 l2 : extend w l1 = extend w l2 -> l1 = l2.
Proof. unfold extend. intros [= H]. by apply app_inv_head in H. Qed.

Lemma same_result {A : Type} (o o' : outcome A) w l l' :
  (o, extend w l) = (o', extend w l') -> o = o' /\ l = l'.
Proof.
  intros H. pose proof (f_equal fst H) as Ho. pose proof (f_equal snd H) as Hw.
  cbn [fst snd] in *. split; [exact Ho | by apply (extend_inj w)].
Qed.

Lemma traces_app l1 l2 : traces (l1 ++ l2) = traces l1 ++ traces l2.
Proof. apply flat_map_app. Qed.

Lemma prints_no_trace l : forallb is_print l = true -> traces l = [].
Proof.
  induction l as [|a r IH]; [done|]. cbn [forallb].
  intros [Ha Hr]%andb_prop. destruct a; try discriminate. by apply IH.
Qed.

(** A submission that waits for [c] waits for anything [c] implies. *)
Lemma submits_when_idle_weaken (c c' : action -> bool) :
  (forall a, c a = true -> c' a = true) ->
  forall l b b', (b' = true -> b = true) ->
    submits_when_idle c b l = true -> submits_when_idle c' b' l = true.
Proof.
  intros Hc. induction l as [|a r IH]; intros b b' Hb; cbn [submits_when_idle]; [done|].
  destruct (is_submit a).
  - intros [Hidle Hr]%andb_prop. apply negb_true_iff in Hidle.
    assert (b' = false) as -> by (destruct b'; [rewrite Hb in Hidle|]; done).
    cbn [negb andb]. by apply (IH true true).
  - apply IH. intros [Hb' Ha]%andb_prop. rewrite (Hb Hb'). cbn [andb].
    apply negb_true_iff in Ha. apply negb_true_iff.
    destruct (c a) eqn:Hca; [|done]. rewrite (Hc a Hca) in Ha. discriminate.
Qed.

Lemma round_events_within g l1 l2 :
  forallb (within_run g) l1 = true ->
  round_events (l1 ++ l2) = delivered l1 ++ round_events l2.
Proof.
  induction l1 as [|a r IH]; [done|]. cbn [forallb].
  intros [Ha Hr]%andb_prop. specialize (IH Hr).
  destruct a; try discriminate; cbn [app round_events delivered flat_map]; by rewrite IH.
Qed.

Section Reading.
Context {R : Runtime}.

(** The handling of an event raises only on a final response. *)
Lemma failing_event_is_final ev :
  handles_cleanly ev = false -> is_final_response ev = true.
Proof.
  unfold handles_cleanly, read_event.
  destruct (get_function_calls ev), (get_function_responses ev); try discriminate.
  by destruct (is_final_response ev).
Qed.

Lemma loop_trace_read_part gen evs err : forall f,
  delivered (fst (loop_trace gen evs err f)) = read_part evs.
Proof.
  induction evs as [|ev rest IH]; intros f; cbn [loop_trace read_part]; [done|].
  pose proof (event_lines_delivered ev) as Hl. unfold handles_cleanly.
  destruct (read_event ev) as [|t|].
  - specialize (IH f). destruct (loop_trace gen rest err f) as [l o]. cbn [fst] in *.
    change (ev :: delivered (event_lines ev ++ l) = ev :: read_part rest).
    by rewrite delivered_app, Hl, IH.
  - specialize (IH t). destruct (loop_trace gen rest err t) as [l o]. cbn [fst] in *.
    change (ev :: delivered (event_lines ev ++ l) = ev :: read_part rest).
    by rewrite delivered_app, Hl, IH.
  - cbn [fst]. change (ev :: delivered (event_lines ev) = [ev]). by rewrite Hl.
Qed.

Lemma loop_trace_reading_ends gen evs err : forall f,
  existsb reading_ends (fst (loop_trace gen evs err f)) = true.
Proof.
  induction evs as [|ev rest IH]; intros f; cbn [loop_trace]; [done|].
  destruct (read_event ev) as [|t|] eqn:Hev.
  - specialize (IH f). destruct (loop_trace gen rest err f) as [l o]. cbn [fst existsb] in *.
    by rewrite (existsb_app_r _ _ _ IH), orb_true_r.
  - specialize (IH t). destruct (loop_trace gen rest err t) as [l o]. cbn [fst existsb] in *.
    by rewrite (existsb_app_r _ _ _ IH), orb_true_r.
  - cbn [fst existsb reading_ends]. unfold handles_cleanly. by rewrite Hev.
Qed.

Lemma loop_trace_traces gen evs err : forall f,
  traces (fst (loop_trace gen evs err f)) = [].
Proof.
  induction evs as [|ev rest IH]; intros f; cbn [loop_trace]; [done|].
  pose proof (prints_no_trace _ (event_lines_prints ev)) as Hl.
  destruct (read_event ev) as [|t|].
  - specialize (IH f). destruct (loop_trace gen rest err f) as [l o]. cbn [fst] in *.
    change (traces (event_lines ev ++ l) = []). by rewrite traces_app, Hl, IH.
  - specialize (IH t). destruct (loop_trace gen rest err t) as [l o]. cbn [fst] in *.
    change (traces (event_lines ev ++ l) = []). by rewrite traces_app, Hl, IH.
  - cbn [fst]. exact Hl.
Qed.

(** One call: its log is a round that holds the events the loop reads of
    its run and an end of the reading; what it raises is what its run
    ended with. *)
Lemma call_trace_round runner before query :
  exists rest,
    fst (call_trace runner before query) = round_log query rest
    /\ forallb (within_run (length (submitted before))) rest = true
    /\ delivered rest = read_part (run_events (run_of runner before query))
    /\ existsb reading_ends rest = true
    /\ (forall e, snd (call_trace runner before query) = Raised e ->
          is_Exception e = false /\ run_error (run_of runner before query) = Some e).
Proof.
  unfold call_trace.
  set (run := run_of runner before query). set (gen := length (submitted before)).
  pose proof (loop_trace_within gen (run_events run) (run_error run) default_final_text) as Hw.
  pose proof (loop_trace_read_part gen (run_events run) (run_error run) default_final_text)
    as Hd.
  pose proof (loop_trace_reading_ends gen (run_events run) (run_error run) default_final_text)
    as Hend.
  pose proof (loop_trace_raised gen (run_events run) (run_error run) default_final_text) as He.
  destruct (loop_trace gen (run_events run) (run_error run) default_final_text)
    as [mid [t|e]]; cbn [fst snd] in *.
  - exists (mid ++ [Print ("🤖 Agent Final Response: " +:+ t); Print rule]).
    split; [done|]. split; [by rewrite forallb_app, Hw|].
    split; [by rewrite delivered_app, Hd, app_nil_r|].
    split; [by apply existsb_app_l|]. discriminate.
  - destruct (is_Exception e) eqn:Hgen; cbn [fst snd].
    + exists (mid ++ [Print ("❌ Error during agent run: " +:+ exn_str e); PrintExc e;
                      Print rule]).
      split; [done|]. split; [by rewrite forallb_app, Hw|].
      split; [by rewrite delivered_app, Hd, app_nil_r|].
      split; [by apply existsb_app_l|]. discriminate.
    + exists mid. split; [done|]. split; [done|]. split; [done|]. split; [done|].
      intros e' [= <-]. split; [done|].
      destruct (He e eq_refl) as [-> | H]; [discriminate Hgen | exact H].
Qed.

Lemma reads_its_run_within runner g l1 : forall before l2,
  forallb (within_run g) l1 = true ->
  reads_its_run runner (before ++ l1) l2 ->
  reads_its_run runner before (l1 ++ l2).
Proof.
  induction l1 as [|a r IH]; intros before l2; cbn [forallb app].
  - by rewrite app_nil_r.
  - intros [Ha Hr]%andb_prop H. cbn [reads_its_run]. split.
    + by destruct a.
    + apply IH; [exact Hr|]. by rewrite <- app_assoc.
Qed.

Lemma reads_its_run_round runner before query rest new :
  forallb (within_run (length (submitted before))) rest = true ->
  delivered rest = read_part (run_events (run_of runner before query)) ->
  round_events new = [] ->
  reads_its_run runner (before ++ round_log query rest) new ->
  reads_its_run runner before (round_log query rest ++ new).
Proof.
  intros Hw Hd Hnew H. unfold round_log, query_header in *.
  cbn [app reads_its_run]. split; [done|]. split; [done|]. split.
  - rewrite (round_events_within _ _ _ Hw), Hd, Hnew, app_nil_r.
    unfold run_of, query_header. by rewrite <- app_assoc.
  - apply (reads_its_run_within runner (length (submitted before))); [exact Hw|].
    rewrite <- !app_assoc. cbn [app] in *. exact H.
Qed.

(** A list of steps, round by round. *)
Lemma run_steps_rounds runner steps : forall w,
  exists new o,
    run_steps runner steps w = (o, extend w new)
    /\ round_events new = []
    /\ reads_its_run runner (log w) new
    /\ submits_when_idle reading_ends false new = true
    /\ busy_after reading_ends false new = false
    /\ (forall e, o = Raised e ->
          exists pre query rest,
            new = pre ++ round_log query rest
            /\ In query (queries steps)
            /\ run_error (run_of runner (log w ++ pre) query) = Some e).
Proof.
  induction steps as [|[line|query] r IH]; intros w; cbn [run_steps].
  - exists [], (Returned tt). rewrite extend_nil. repeat split; discriminate.
  - rewrite print_bind.
    destruct (IH (extend w [Print line])) as (new & o & Heq & Hev & Hread & Hidle & Hbusy & Ho).
    exists (Print line :: new), o. rewrite Heq, extend_extend.
    split; [done|]. split; [done|]. split; [done|]. split; [done|]. split; [done|].
    intros e He. destruct (Ho e He) as (pre & query & rest & -> & Hin & Herr).
    exists (Print line :: pre), query, rest. split; [done|]. split; [exact Hin|].
    rewrite log_extend, <- app_assoc in Herr. exact Herr.
  - unfold mbind at 1, M_bind at 1. rewrite call_exact.
    destruct (call_trace_round runner (log w) query) as (rest & Hfst & Hw & Hd & Hend & Ho1).
    destruct (call_trace runner (log w) query) as [tr o1]. cbn [fst snd] in *. subst tr.
    pose proof (round_idle reading_ends _ query rest Hw) as Hidle1.
    pose proof (round_busy reading_ends _ query rest Hw Hend) as Hbusy1.
    destruct o1 as [[]|e].
    + destruct (IH (extend w (round_log query rest)))
        as (new & o & Heq & Hev & Hread & Hidle & Hbusy & Ho).
      exists (round_log query rest ++ new), o. rewrite Heq, extend_extend.
      split; [done|]. split; [done|].
      split; [by apply reads_its_run_round|].
      split; [by rewrite submits_when_idle_app, Hidle1, Hbusy1|].
      split; [by rewrite busy_after_app, Hbusy1|].
      intros e He. destruct (Ho e He) as (pre & query' & rest' & -> & Hin & Herr).
      exists (round_log query rest ++ pre), query', rest'.
      split; [by rewrite <- app_assoc|]. split; [cbn [queries flat_map app]; by right|].
      rewrite log_extend, <- app_assoc in Herr. exact Herr.
    + exists (round_log query rest), (Raised e).
      split; [done|]. split; [done|]. split.
      { rewrite <- (app_nil_r (round_log query rest)).
        by apply reads_its_run_round. }
      split; [exact Hidle1|]. split; [exact Hbusy1|].
      intros e' [= <-]. exists [], query, rest.
      split; [done|]. split; [cbn [queries flat_map app]; by left|].
      rewrite app_nil_r. by apply Ho1.
Qed.

Lemma demo_rounds w :
  exists new o,
    run_combined_example w = (o, extend w (setup_log ++ new))
    /\ reads_its_run {| agent := root_agent; app_name := APP_NAME |} (log w) (setup_log ++ new)
    /\ submits_when_idle reading_ends false (setup_log ++ new) = true
    /\ busy_after reading_ends false (setup_log ++ new) = false
    /\ (forall e, o = Raised e ->
          exists pre query rest,
            new = pre ++ round_log query rest
            /\ In query demo_prompts
            /\ run_error (run_of {| agent := root_agent; app_name := APP_NAME |}
                            (log w ++ setup_log ++ pre) query) = Some e).
Proof.
  rewrite run_combined_example_steps, (bind_returned _ _ _ _ _ (setup_spec w)).
  destruct (run_steps_rounds {| agent := root_agent; app_name := APP_NAME |} demo_steps
              (extend w setup_log)) as (new & o & Heq & _ & Hread & Hidle & Hbusy & Ho).
  exists new, o. rewrite Heq, extend_extend. split; [done|]. split.
  { unfold setup_log at 1. cbn [app reads_its_run].
    split; [done|]. split; [done|]. split; [done|].
    rewrite log_extend in Hread. unfold setup_log in Hread.
    rewrite <- !app_assoc. cbn [app]. exact Hread. }
  split; [unfold setup_log at 1; exact Hidle|].
  split; [unfold setup_log at 1; exact Hbusy|].
  intros e He. destruct (Ho e He) as (pre & query & rest & -> & Hin & Herr).
  exists pre, query, rest. split; [done|]. split; [exact Hin|].
  rewrite log_extend, <- app_assoc in Herr. exact Herr.
Qed.


End Reading.

(* ===================================================================== *)
(** * The demo, prompt after prompt                                       *)
(* ===================================================================== *)




(** C3. An [Exception] raised while one prompt is processed is caught in
    the call for that prompt, reported with its trace, and the call
    returns, the prompt submitted once.  When the run of the prompt ends
    with an [Exception], every event of the run is read first, then the
    error line and the trace are printed; when the handling of an event
    raises, the events up to it are read, and the error line and the trace
    are printed; whatever raised it, an [Exception] that comes out of the
    [try] block is reported so.  And when the runs of the runner end by
    exhaustion or with an [Exception], the demo returns with every prompt
    submitted once, in order. *)
Theorem exception_does_not_stop_the_demo (R : Runtime) :
  (forall query runner w e,
      run_error (run_of runner (log w) query) = Some e ->
      is_Exception e = true ->
      forallb handles_cleanly (run_events (run_of runner (log w) query)) = true ->
      exists mid,
        call_combined_agent_async query runner w
        = (Returned tt,
           extend w
             (round_log query
                (mid ++ [Finish (length (submitted (log w))) (Some e);
                         Print ("❌ Error during agent run: " +:+ exn_str e);
                         PrintExc e;
                         Print rule])))
        /\ delivered mid = run_events (run_of runner (log w) query)
        /\ reports mid = [] /\ traces mid = [] /\ submitted mid = [])
  /\ (forall query runner w pre ev post,
      run_events (run_of runner (log w) query) = pre ++ ev :: post ->
      forallb handles_cleanly pre = true ->
      handles_cleanly ev = false ->
      exists mid,
        call_combined_agent_async query runner w
        = (Returned tt,
           extend w
             (round_log query
                (mid ++ [Print ("❌ Error during agent run: "
                                +:+ "'NoneType' object has no attribute 'strip'");
                         PrintExc (Exn AttributeError
                                     "'NoneType' object has no attribute 'strip'");
                         Print rule])))
        /\ delivered mid = pre ++ [ev]
        /\ reports mid = [] /\ traces mid = [] /\ submitted mid = [])
  /\ (forall query runner w e w',
      agent_run query runner (extend w (query_header query)) = (Raised e, w') ->
      is_Exception e = true ->
      call_combined_agent_async query runner w
      = (Returned tt,
         extend w' [Print ("❌ Error during agent run: " +:+ exn_str e); PrintExc e;
                    Print rule])
      /\ submitted (log w') = submitted (log w) ++ [user_content query])
  /\ (generic_only R ->
      forall w, exists new,
        run_combined_example w = (Returned tt, extend w new)
        /\ submitted_texts new = map Some demo_prompts).
Proof.
  split; [|split; [|split]].
  - intros query runner w e Herr He Hclean. rewrite call_exact. unfold call_trace.
    pose proof (loop_trace_within (length (submitted (log w)))
                  (run_events (run_of runner (log w) query))
                  (run_error (run_of runner (log w) query)) default_final_text) as Hw.
    pose proof (loop_trace_traces (length (submitted (log w)))
                  (run_events (run_of runner (log w) query))
                  (run_error (run_of runner (log w) query)) default_final_text) as Ht.
    destruct (loop_trace_clean (length (submitted (log w))) _
                (run_error (run_of runner (log w) query)) Hclean default_final_text)
      as (mid & Hloop & Hd & Hr).
    rewrite Hloop in Hw, Ht |- *. rewrite Herr, He. cbn [fst snd] in *.
    rewrite forallb_app in Hw. apply andb_prop in Hw as [Hw _].
    rewrite traces_app in Ht. apply app_eq_nil in Ht as [Ht _].
    exists mid. split; [by rewrite <- app_assoc|].
    split; [exact Hd|]. split; [exact Hr|]. split; [exact Ht|].
    by apply (within_run_submitted (length (submitted (log w)))).
  - intros query runner w pre ev post Hev Hpre Hfail. rewrite call_exact. unfold call_trace.
    pose proof (loop_trace_within (length (submitted (log w)))
                  (run_events (run_of runner (log w) query))
                  (run_error (run_of runner (log w) query)) default_final_text) as Hw.
    pose proof (loop_trace_traces (length (submitted (log w)))
                  (run_events (run_of runner (log w) query))
                  (run_error (run_of runner (log w) query)) default_final_text) as Ht.
    rewrite Hev in Hw, Ht |- *.
    destruct (loop_trace_fails (length (submitted (log w))) pre ev post
                (run_error (run_of runner (log w) query)) Hpre Hfail default_final_text)
      as (mid & Hloop & Hd & Hr).
    rewrite Hloop in Hw, Ht |- *.
    cbn [fst snd is_Exception exn_class_of exn_str no_strip] in *.
    exists mid. split; [done|].
    split; [exact Hd|]. split; [exact Hr|]. split; [exact Ht|].
    by apply (within_run_submitted (length (submitted (log w)))).
  - intros query runner w e w' Hrun He. split.
    + unfold call_combined_agent_async. rewrite !print_bind, extend_extend. cbn [app].
      unfold mbind at 1, M_bind at 1, try_except. unfold query_header in Hrun.
      rewrite Hrun, He. unfold report_error.
      rewrite print_bind, perform_eq. cbv beta iota. rewrite print_eq.
      by rewrite !extend_extend.
    + destruct (agent_run_spec query runner (extend w (query_header query)))
        as (mid & o & Heq & Hw & _).
      rewrite Hrun in Heq. injection Heq as _ ->.
      rewrite !log_extend, !submitted_app. cbn [submitted flat_map app].
      fold (submitted mid). rewrite (within_run_submitted _ _ Hw).
      change (submitted (query_header query)) with (@nil Content).
      by rewrite app_nil_r.
  - intros Hgen w.
    destruct (demo_spec run_over (fun _ H _ => H) w) as (new & o & Heq & _ & _ & Ho).
    destruct o as [[]|e]; [|by destruct Ho as [_ []]].
    destruct Ho as [_ Hs]. exists new. split; [exact Heq|].
    unfold submitted_texts. rewrite Hs. reflexivity.
Qed.

Lemma exception_does_not_stop_the_demo_witness :
  (exists mid,
      @call_combined_agent_async failing_runtime "Get details for pet ID 456"
        {| agent := @root_agent failing_runtime; app_name := APP_NAME |} (start ∅)
      = (Returned tt,
         extend (start ∅)
           (@round_log failing_runtime "Get details for pet ID 456"
              (mid ++ [Finish 0 (Some (Exn OtherException "503 Service Unavailable"));
                       Print ("❌ Error during agent run: " +:+ "503 Service Unavailable");
                       PrintExc (Exn OtherException "503 Service Unavailable");
                       Print rule])))
      /\ delivered mid = []
      /\ reports mid = [] /\ traces mid = [] /\ submitted mid = [])
  /\ (exists mid,
      @call_combined_agent_async image_runtime "Get details for pet ID 456"
        {| agent := @root_agent image_runtime; app_name := APP_NAME |} (start ∅)
      = (Returned tt,
         extend (start ∅)
           (@round_log image_runtime "Get details for pet ID 456"
              (mid ++ [Print ("❌ Error during agent run: "
                              +:+ "'NoneType' object has no attribute 'strip'");
                       PrintExc (Exn AttributeError
                                   "'NoneType' object has no attribute 'strip'");
                       Print rule])))
      /\ delivered mid = [] ++ [image_event]
      /\ reports mid = [] /\ traces mid = [] /\ submitted mid = [])
  /\ (exists new,
      @run_combined_example failing_runtime (start ∅) = (Returned tt, extend (start ∅) new)
      /\ submitted_texts new = map Some demo_prompts)
  /\ length (traces (log (snd (@run_combined_example failing_runtime (start ∅))))) = 6.
Proof.
  destruct (exception_does_not_stop_the_demo failing_runtime) as (Hrun & _ & _ & Hdemo).
  destruct (exception_does_not_stop_the_demo image_runtime) as (_ & Hevent & _ & _).
  split; [|split; [|split]].
  - apply (Hrun "Get details for pet ID 456"
             {| agent := @root_agent failing_runtime; app_name := APP_NAME |} (start ∅)
             (Exn OtherException "503 Service Unavailable")); reflexivity.
  - apply (Hevent "Get details for pet ID 456"
             {| agent := @root_agent image_runtime; app_name := APP_NAME |} (start ∅)
             [] image_event [text_event]); reflexivity.
  - apply Hdemo. intros runner before user session message e H.
    cbn in H. injection H as <-. reflexivity.
  - vm_compute. reflexivity.
Defined.

(** C8, as the code has it.  Whatever the runner does, the demo submits a
    prompt only when the script has stopped reading the run of the prompt
    before it: the generator of that run came to its end, by exhaustion or
    by raising, or the handling of the event just read raised, which was
    caught and reported; this happens only on a final response, so a
    prompt is submitted only after the end of the generator before it or
    after a final response.  And what the script reads between two
    submissions is a first part of the run submitted last, in its order:
    all of the run, or the run up to the event whose handling raises.  The
    rest of such a run is never read. *)
Theorem next_prompt_follows_end_of_reading (R : Runtime) (w : world) :
  exists new o,
    run_combined_example w = (o, extend w new)
    /\ submits_when_idle reading_ends false new = true
    /\ submits_when_idle run_over false new = true
    /\ submits_when_idle (fun a => run_finished a || final_response_arrived a) false new = true
    /\ reads_its_run {| agent := root_agent; app_name := APP_NAME |} (log w) new.
Proof.
  destruct (demo_rounds w) as (new & o & Heq & Hread & Hidle & _).
  destruct (demo_spec run_over (fun _ H _ => H) w) as (new' & o' & Heq' & Hover & _).
  rewrite Heq in Heq'. apply same_result in Heq' as [_ Hnew].
  rewrite <- Hnew in Hover.
  exists (setup_log ++ new), o. split; [exact Heq|]. split; [exact Hidle|].
  split; [exact Hover|]. split; [|exact Hread].
  apply (submits_when_idle_weaken reading_ends _) with (b := false); [|done|exact Hidle].
  intros [] H; try discriminate H; [|reflexivity].
  cbn [reading_ends] in H. apply negb_true_iff, failing_event_is_final in H.
  cbn [run_finished final_response_arrived orb]. exact H.
Qed.

(** C8, as stated, fails, whichever way it is read.  On a runner whose
    runs yield a final response with no text and then another event, every
    run is left after its first event: the second one is never read, no
    generator comes to its end, and each prompt after the first is
    submitted while the runs before it are unfinished.  And on a runner
    whose runs yield nothing, no final response ever arrives, and the six
    prompts are submitted all the same. *)
Lemma next_prompt_submitted_before_run_ends :
  ((forall runner before user session message,
       run_events (@run_async image_runtime runner before user session message)
       = [image_event; text_event])
   /\ fst (@run_combined_example image_runtime (start ∅)) = Returned tt
   /\ delivered (log (snd (@run_combined_example image_runtime (start ∅))))
      = [image_event; image_event; image_event; image_event; image_event; image_event]
   /\ length (submitted (log (snd (@run_combined_example image_runtime (start ∅))))) = 6
   /\ submits_when_idle run_finished false
        (log (snd (@run_combined_example image_runtime (start ∅)))) = false
   /\ finished (log (snd (@run_combined_example image_runtime (start ∅)))) = []
   /\ left_open (log (snd (@run_combined_example image_runtime (start ∅))))
      = [0; 1; 2; 3; 4; 5])
  /\ ((forall runner before user session message,
          run_events (@run_async quiet_runtime runner before user session message) = [])
      /\ fst (@run_combined_example quiet_runtime (start ∅)) = Returned tt
      /\ delivered (log (snd (@run_combined_example quiet_runtime (start ∅)))) = []
      /\ length (submitted (log (snd (@run_combined_example quiet_runtime (start ∅))))) = 6
      /\ submits_when_idle final_response_arrived false
           (log (snd (@run_combined_example quiet_runtime (start ∅)))) = false).
Proof.
  split.
  - split; [reflexivity|]. split; [vm_compute; reflexivity|].
    split; [vm_compute; reflexivity|]. split; [vm_compute; reflexivity|].
    split; [vm_compute; reflexivity|]. split; vm_compute; reflexivity.
  - split; [reflexivity|]. split; [vm_compute; reflexivity|].
    split; [vm_compute; reflexivity|]. split; vm_compute; reflexivity.
Qed.

(* ===================================================================== *)
(** * More properties of the script                                       *)
(* ===================================================================== *)

(** X1. One session for the whole demo: [run_combined_example] first makes
    the session service, the runner on [root_agent] and the one session
    (APP_NAME, USER_ID, SESSION_ID), makes no other object or session
    afterwards, and every prompt it submits goes to that user and that
    session, whatever the runner does. *)
Theorem one_session_for_all_prompts (R : Runtime) (w : world) :
  exists new o,
    run_combined_example w
    = (o, extend w
            ([Construct ObjSessionService;
              Construct (ObjRunner {| agent := root_agent; app_name := APP_NAME |});
              CreateSession APP_NAME USER_ID SESSION_ID] ++ new))
    /\ sessions_created new = []
    /\ constructed new = []
    /\ Forall (fun k => k = (USER_ID, SESSION_ID)) (submission_keys new).
Proof.
  destruct (demo_census w) as (new & o & Heq & Hs & Hc & Hk & _).
  by exists new, o.
Qed.

(** X2. The events of a run reach the loop in the order of the run, none
    skipped and none twice: what one call receives is a first part of the
    run the runner gave for it, and when the final response line is
    printed it is the whole run, which ended without raising. *)
Theorem events_delivered_in_order
    (R : Runtime) (query : string) (runner : Runner) (w : world) :
  exists new o skipped,
    call_combined_agent_async query runner w = (o, extend w new)
    /\ run_events (run_of runner (log w) query) = delivered new ++ skipped
    /\ (existsb is_final_line new = true ->
        skipped = [] /\ run_error (run_of runner (log w) query) = None).
Proof.
  rewrite call_exact. unfold call_trace.
  set (run := run_of runner (log w) query). set (gen := length (submitted (log w))).
  pose proof (loop_trace_within gen (run_events run) (run_error run) default_final_text) as Hw.
  pose proof (loop_trace_reports gen (run_events run) (run_error run) default_final_text) as Hr.
  destruct (loop_trace_delivered gen (run_events run) (run_error run) default_final_text)
    as (skipped & Hd & Hret).
  destruct (loop_trace gen (run_events run) (run_error run) default_final_text)
    as [mid [t|e]]; cbn [fst snd] in *.
  - assert (Hw' : forallb (within_run gen)
                    (mid ++ [Print ("🤖 Agent Final Response: " +:+ t); Print rule]) = true)
      by (by rewrite forallb_app, Hw).
    destruct (round_log_readings _ query _ Hw') as (_ & _ & _ & _ & _ & Hdel).
    eexists _, _, skipped. split; [reflexivity|]. split.
    + rewrite Hdel, delivered_app. cbn [delivered flat_map]. by rewrite app_nil_r.
    + intros _. by apply (Hret t).
  - assert (Hnone : forall tail,
               forallb (within_run gen) tail = true -> delivered tail = [] ->
               existsb is_final_line tail = false ->
               run_events run = delivered (round_log query (mid ++ tail)) ++ skipped
               /\ existsb is_final_line (round_log query (mid ++ tail)) = false).
    { intros tail Ht Hdt Hft.
      assert (Hw' : forallb (within_run gen) (mid ++ tail) = true)
        by (by rewrite forallb_app, Hw, Ht).
      destruct (round_log_readings _ query _ Hw') as (_ & _ & _ & _ & _ & Hdel).
      split; [by rewrite Hdel, delivered_app, Hdt, app_nil_r|].
      change (round_log query (mid ++ tail))
        with (query_header query
              ++ [RunAsync USER_ID SESSION_ID (user_content query)] ++ mid ++ tail).
      rewrite !existsb_app, (no_report_no_final_line _ Hr), Hft. reflexivity. }
    destruct (is_Exception e); cbn [fst snd].
    + destruct (Hnone [Print ("❌ Error during agent run: " +:+ exn_str e); PrintExc e;
                       Print rule]) as [H1 H2]; try reflexivity.
      eexists _, _, skipped. split; [reflexivity|]. split; [exact H1|].
      intros H. rewrite H2 in H. discriminate.
    + destruct (Hnone []) as [H1 H2]; try reflexivity.
      rewrite app_nil_r in H1, H2.
      eexists _, _, skipped. split; [reflexivity|]. split; [exact H1|].
      intros H. rewrite H2 in H. discriminate.
Qed.

(** X3. When the run ends by exhaustion and no event raises while it is
    handled, every event is received, and the final response printed is
    the stripped text of the last final response that holds text (an event
    with a function call or a function response is never read for it); if
    no event holds one, it is the default text.  The rule closes the
    round. *)
Theorem final_response_is_last_text
    (R : Runtime) (query : string) (runner : Runner) (w : world) :
  run_error (run_of runner (log w) query) = None ->
  forallb handles_cleanly (run_events (run_of runner (log w) query)) = true ->
  exists mid,
    call_combined_agent_async query runner w
    = (Returned tt,
       extend w
         (round_log query
            (mid ++ [Finish (length (submitted (log w))) None;
                     Print ("🤖 Agent Final Response: "
                            +:+ List.last
                                  (final_texts (run_events (run_of runner (log w) query)))
                                  "Agent did not provide a final text response.");
                     Print rule])))
    /\ delivered mid = run_events (run_of runner (log w) query)
    /\ reports mid = [].
Proof.
  intros Herr Hclean. rewrite call_exact. unfold call_trace.
  destruct (loop_trace_clean (length (submitted (log w))) _
              (run_error (run_of runner (log w) query)) Hclean default_final_text)
    as (mid & -> & Hd & Hr).
  rewrite Herr. cbn [fst snd]. exists mid. split; [|done].
  by rewrite <- app_assoc.
Qed.

Lemma final_response_is_last_text_witness :
  List.last (@final_texts chatty_runtime
               [call_event; response_event; draft_event; text_event])
    "Agent did not provide a final text response." = "done"
  /\ exists mid,
      @call_combined_agent_async chatty_runtime "Get details for pet ID 456"
        {| agent := @root_agent chatty_runtime; app_name := APP_NAME |} (start ∅)
      = (Returned tt,
         extend (start ∅)
           (@round_log chatty_runtime "Get details for pet ID 456"
              (mid ++ [Finish 0 None;
                       Print ("🤖 Agent Final Response: "
                              +:+ List.last
                                    (@final_texts chatty_runtime
                                       [call_event; response_event; draft_event;
                                        text_event])
                                    "Agent did not provide a final text response.");
                       Print rule])))
      /\ delivered mid = [call_event; response_event; draft_event; text_event]
      /\ reports mid = [].
Proof.
  split; [reflexivity|].
  apply (final_response_is_last_text chatty_runtime "Get details for pet ID 456"
           {| agent := @root_agent chatty_runtime; app_name := APP_NAME |} (start ∅));
    reflexivity.
Defined.

(** X4. Each call of [call_combined_agent_async] that returns has printed
    exactly one report, the final response or the error and never both,
    and the rule last; a call that raises (an exception that is no
    [Exception], with which the run ended) has printed no report. *)
Theorem one_report_per_prompt
    (R : Runtime) (query : string) (runner : Runner) (w : world) :
  exists new o,
    call_combined_agent_async query runner w = (o, extend w new)
    /\ match o with
       | Returned _ => length (reports new) = 1 /\ last new = Some (Print rule)
       | Raised e =>
           is_Exception e = false
           /\ reports new = []
           /\ run_error (run_of runner (log w) query) = Some e
       end.
Proof.
  rewrite call_exact.
  destruct (call_trace_shape runner (log w) query) as (rest & Hfst & Hw & Ho).
  destruct (call_trace runner (log w) query) as [tr o]. cbn [fst snd] in *. subst tr.
  destruct (round_log_readings _ query rest Hw) as (_ & _ & _ & _ & Hr & _).
  exists (round_log query rest), o. split; [done|].
  destruct o as [[]|e].
  - destruct Ho as [Hone Hlast]. split; [by rewrite Hr|].
    unfold round_log. by rewrite last_app_cons, last_cons, Hlast.
  - destruct Ho as (He & Hnone & Herr). by rewrite Hr.
Qed.

(** X5. In the demo every prompt submitted is reported on: when
    [run_combined_example] returns, the reports printed are as many as
    the prompts submitted; when it raises, they are one fewer (the prompt
    during which the exception came is the one without a report). *)
Theorem every_submitted_prompt_is_reported (R : Runtime) (w : world) :
  exists new o,
    run_combined_example w = (o, extend w new)
    /\ match o with
       | Returned _ => length (reports new) = length (submitted new)
       | Raised _ => S (length (reports new)) = length (submitted new)
       end.
Proof.
  destruct (demo_census w) as (new & o & Heq & _ & _ & _ & Ho).
  exists (setup_log ++ new), o. split; [exact Heq|].
  by rewrite reports_app, submitted_app.
Qed.

(** X6. The script changes no environment variable: whatever its outcome,
    the environment at its end is the one [load_dotenv] left (writing the
    key back under its own name changes nothing). *)
Theorem environment_is_what_dotenv_left (R : Runtime) (env : gmap string string) :
  environ (snd (script (start env))) = load_dotenv env.
Proof.
  destruct (load_dotenv env !! "GOOGLE_API_KEY") as [key|] eqn:Hkey.
  2: { by rewrite (script_missing env (or_introl Hkey)). }
  destruct (decide (key = "")) as [-> | Hne].
  { by rewrite (script_missing env (or_intror Hkey)). }
  unfold script. rewrite (bind_returned _ _ _ _ _ (module_body_present env key Hkey Hne)).
  set (w1 := {| environ := _; log := _ |}).
  assert (Henv : environ w1 = load_dotenv env) by (by apply insert_id).
  destruct loop_running eqn:Hloop.
  - by rewrite (main_in_loop w1 Hloop).
  - destruct (main_out_of_loop w1 Hloop) as (new & o & -> & _). exact Henv.
Qed.

(** X7. Started where an event loop is already running, [main] runs no
    demo: it prints its first line, the line about the running loop and
    its last line, and returns; nothing is built and nothing submitted. *)
Theorem running_loop_skips_the_demo (R : Runtime) (w : world) :
  loop_running = true ->
  main w
  = (Returned tt,
     extend w
       [Print "🚀 Executing Combined OpenAPI + MCP Agent Example...";
        Print "ℹ️  Cannot run asyncio.run from a running event loop (e.g., Jupyter/Colab).";
        Print "✅ Combined agent example finished."]).
Proof. apply main_in_loop. Qed.

Lemma running_loop_skips_the_demo_witness :
  @main notebook_runtime (start ∅)
  = (Returned tt,
     extend (start ∅)
       [Print "🚀 Executing Combined OpenAPI + MCP Agent Example...";
        Print "ℹ️  Cannot run asyncio.run from a running event loop (e.g., Jupyter/Colab).";
        Print "✅ Combined agent example finished."]).
Proof. apply (running_loop_skips_the_demo notebook_runtime (start ∅)). reflexivity. Defined.


(** X9. An exception that is no [Exception] (a KeyboardInterrupt, say) is
    not caught: when the run of a prompt ends with one, after events that
    are handled without raising, the call raises it, and after the end of
    the generator nothing more is printed, no error line, no trace and no
    rule. *)
Theorem non_exception_is_not_caught
    (R : Runtime) (query : string) (runner : Runner) (w : world) (e : exn) :
  run_error (run_of runner (log w) query) = Some e ->
  is_Exception e = false ->
  forallb handles_cleanly (run_events (run_of runner (log w) query)) = true ->
  exists mid,
    call_combined_agent_async query runner w
    = (Raised e,
       extend w
         (round_log query (mid ++ [Finish (length (submitted (log w))) (Some e)])))
    /\ delivered mid = run_events (run_of runner (log w) query)
    /\ reports mid = [].
Proof.
  intros Herr He Hclean. rewrite call_exact. unfold call_trace.
  destruct (loop_trace_clean (length (submitted (log w))) _
              (run_error (run_of runner (log w) query)) Hclean default_final_text)
    as (mid & -> & Hd & Hr).
  rewrite Herr, He. cbn [fst snd]. by exists mid.
Qed.

Lemma non_exception_is_not_caught_witness :
  exists mid,
    @call_combined_agent_async interrupted_runtime "Get details for pet ID 456"
      {| agent := @root_agent interrupted_runtime; app_name := APP_NAME |} (start ∅)
    = (Raised interrupted,
       extend (start ∅)
         (@round_log interrupted_runtime "Get details for pet ID 456"
            (mid ++ [Finish 0 (Some interrupted)])))
    /\ delivered mid = []
    /\ reports mid = [].
Proof.
  apply (non_exception_is_not_caught interrupted_runtime "Get details for pet ID 456"
           {| agent := @root_agent interrupted_runtime; app_name := APP_NAME |} (start ∅)
           interrupted); reflexivity.
Defined.

(** X10. A final response whose first part holds no text ends the prompt:
    the events before it are received and handled, the events after it are
    never received, the AttributeError is reported with its trace, no final
    response is printed, and the call returns. *)
Theorem textless_final_response_ends_prompt
    (R : Runtime) (query : string) (runner : Runner) (w : world)
    (pre : list Event) (ev : Event) (post : list Event) :
  run_events (run_of runner (log w) query) = pre ++ ev :: post ->
  forallb handles_cleanly pre = true ->
  handles_cleanly ev = false ->
  exists mid,
    call_combined_agent_async query runner w
    = (Returned tt,
       extend w
         (round_log query
            (mid ++ [Print "❌ Error during agent run: 'NoneType' object has no attribute 'strip'";
                     PrintExc (Exn AttributeError
                                 "'NoneType' object has no attribute 'strip'");
                     Print rule])))
    /\ delivered mid = pre ++ [ev]
    /\ reports mid = [].
Proof.
  intros Hev Hpre Hfail. rewrite call_exact. unfold call_trace. rewrite Hev.
  destruct (loop_trace_fails (length (submitted (log w))) pre ev post
              (run_error (run_of runner (log w) query)) Hpre Hfail default_final_text)
    as (mid & -> & Hd & Hr).
  cbn [fst snd is_Exception exn_class_of no_strip]. by exists mid.
Qed.

Lemma textless_final_response_ends_prompt_witness :
  exists mid,
    @call_combined_agent_async image_runtime "Get details for pet ID 456"
      {| agent := @root_agent image_runtime; app_name := APP_NAME |} (start ∅)
    = (Returned tt,
       extend (start ∅)
         (@round_log image_runtime "Get details for pet ID 456"
            (mid ++ [Print "❌ Error during agent run: 'NoneType' object has no attribute 'strip'";
                     PrintExc (Exn AttributeError
                                 "'NoneType' object has no attribute 'strip'");
                     Print rule])))
    /\ delivered mid = [] ++ [image_event]
    /\ reports mid = [].
Proof.
  apply (textless_final_response_ends_prompt image_runtime "Get details for pet ID 456"
           {| agent := @root_agent image_runtime; app_name := APP_NAME |} (start ∅)
           [] image_event [text_event]); reflexivity.
Defined.

(** X11. Where [os.path.join] gives back an absolute second argument as it
    is (the POSIX rule), the folder of the script plays no part in
    TARGET_FOLDER_PATH: it is the literal path, and the filesystem server
    is started on [os.path.abspath] of that literal. *)
Theorem target_folder_ignores_script_location (R : Runtime) :
  (forall a b, Json.has_prefix "/" b = true -> path_join a b = b) ->
  TARGET_FOLDER_PATH = "/home/cetec/AIProjects/adk_openapi/adk_test"
  /\ filesystem_toolset
     = MCPToolset
         {| server_params :=
              {| command := "npx";
                 args := ["-y"; "@modelcontextprotocol/server-filesystem";
                          path_abspath "/home/cetec/AIProjects/adk_openapi/adk_test"] |} |}.
Proof.
  intros Hjoin.
  assert (H : TARGET_FOLDER_PATH = "/home/cetec/AIProjects/adk_openapi/adk_test")
    by (unfold TARGET_FOLDER_PATH; by apply Hjoin).
  split; [exact H|]. unfold filesystem_toolset. by rewrite H.
Qed.

Lemma target_folder_ignores_script_location_witness :
  @TARGET_FOLDER_PATH quiet_runtime = "/home/cetec/AIProjects/adk_openapi/adk_test"
  /\ @filesystem_toolset quiet_runtime
     = MCPToolset
         {| server_params :=
              {| command := "npx";
                 args := ["-y"; "@modelcontextprotocol/server-filesystem";
                          "/home/cetec/AIProjects/adk_openapi/adk_test"] |} |}.
Proof.
  apply (target_folder_ignores_script_location quiet_runtime). intros a b _. reflexivity.
Defined.

(** X12. An exception that is no [Exception] ends the demo where it
    comes: when [run_combined_example] raises, what it raises is no
    [Exception], and the last thing in the log is the end of the generator
    that raised it; no error line, no rule, no later prompt follows. *)
Theorem interrupt_ends_the_demo (R : Runtime) (w : world) (e : exn) (w' : world) :
  run_combined_example w = (Raised e, w') ->
  is_Exception e = false
  /\ exists new gen, w' = extend w new /\ last new = Some (Finish gen (Some e)).
Proof.
  rewrite run_combined_example_steps, (bind_returned _ _ _ _ _ (setup_spec w)).
  intros H. destruct (run_steps_interrupted _ _ _ _ _ H) as (He & new & gen & -> & Hlast).
  split; [exact He|]. exists (setup_log ++ new), gen. rewrite extend_extend.
  split; [done|]. by rewrite last_app, Hlast.
Qed.

Lemma interrupt_ends_the_demo_witness :
  submitted_texts (log (snd (@run_combined_example interrupted_runtime (start ∅))))
  = [Some "Show me available pets in the store"]
  /\ is_Exception interrupted = false
  /\ exists new gen,
      snd (@run_combined_example interrupted_runtime (start ∅)) = extend (start ∅) new
      /\ last new = Some (Finish gen (Some interrupted)).
Proof.
  split; [vm_compute; reflexivity|].
  apply (interrupt_ends_the_demo interrupted_runtime (start ∅) interrupted).
  vm_compute. reflexivity.
Defined.
